(** * TerminalAI: a shallow embedding of [main.py] (class [GeminiChat])

    The script is a single-threaded terminal client: it keeps a conversation
    history and a table of uploaded files, talks to a remote HTTP API and
    reads the local file system.  The embedding threads the two mutable
    attributes of [self] together with a logical clock, the trace of HTTP
    requests issued and the lines printed, through a small state-and-error
    monad.  What the Python runtime, the operating system and the remote
    server decide is taken as data ([Runtime], [Remote]), and so is what
    the terminal does with the banner and with a text the shell makes at
    run time, and what [input()] yields; every theorem quantifies over
    them. *)

From Stdlib Require Import String Ascii ZArith NArith List Bool Lia DecimalString.
Import ListNotations.
Open Scope string_scope.
Open Scope Z_scope.

(** ** Python values

    The values that travel through the script are JSON-shaped: the
    conversation history is a list of dicts, responses are decoded JSON,
    and [None] is what a function without [return] yields. *)

#[local] Set Warnings "-register-all,-notation-for-abbreviation".

Inductive value : Type :=
| VNone
| VBool (b : bool)
| VInt (z : Z)
| VDec (digits : Z) (scale : nat)        (* the literal digits / 10^scale *)
| VStr (s : string)
| VList (l : list value)
| VDict (d : list (string * value)).

(** Exceptions, by the classes the [except] clauses of the script tell
    apart.  [Timeout] is a subclass of [RequestException] in [requests]. *)
Inductive Exn : Type :=
| Timeout (detail : string)
| RequestException (detail : string)
| OSError (detail : string)
| ValueError (detail : string)
| KeyError (key : string)
| IndexError
| TypeError
| AttributeError.

(** What a call gives: a value, or the exception it raises instead. *)
Inductive Res (A : Type) : Type :=
| Val (a : A)
| Err (e : Exn).
Arguments Val {A} a.
Arguments Err {A} e.

Module Py.

(** [bool(v)] *)
Definition truthy (v : value) : bool :=
  match v with
  | VNone => false
  | VBool b => b
  | VInt z => negb (z =? 0)
  | VDec d _ => negb (d =? 0)
  | VStr s => negb (s =? "")%string
  | VList l => match l with [] => false | _ => true end
  | VDict d => match d with [] => false | _ => true end
  end.

(** [s.startswith(p)] *)
Definition startswith (s p : string) : bool := String.prefix p s.

(** [s[n:]] *)
Fixpoint drop (n : nat) (s : string) : string :=
  match n, s with
  | O, _ => s
  | S n', String _ s' => drop n' s'
  | S _, EmptyString => EmptyString
  end.

(** [p in s] for two strings *)
Fixpoint contains (s p : string) : bool :=
  String.prefix p s ||
  match s with
  | EmptyString => false
  | String _ s' => contains s' p
  end.

(** [sep.join(l)] *)
Fixpoint join (sep : string) (l : list string) : string :=
  match l with
  | [] => ""
  | [x] => x
  | x :: rest => x ++ sep ++ join sep rest
  end.

(** [str(z)] for an [int] *)
Definition str_int (z : Z) : string := NilZero.string_of_int (Z.to_int z).

(** Lookup in a dict kept as an association list (insertion order). *)
Fixpoint lookup {A : Type} (d : list (string * A)) (k : string) : option A :=
  match d with
  | [] => None
  | (k', v) :: rest => if (k' =? k)%string then Some v else lookup rest k
  end.

(** [d[k] = v]: an existing key keeps its place, a new one goes last. *)
Fixpoint assign {A : Type} (d : list (string * A)) (k : string) (v : A)
  : list (string * A) :=
  match d with
  | [] => [(k, v)]
  | (k', v') :: rest =>
      if (k' =? k)%string then (k, v) :: rest else (k', v') :: assign rest k v
  end.

(** [del d[k]] for a key that is present. *)
Fixpoint remove {A : Type} (d : list (string * A)) (k : string)
  : list (string * A) :=
  match d with
  | [] => []
  | (k', v') :: rest =>
      if (k' =? k)%string then rest else (k', v') :: remove rest k
  end.

(** [v.get(k, default)]: only a dict has the method. *)
Definition get (v : value) (k : string) (default : value) : Res value :=
  match v with
  | VDict d => Val (match lookup d k with Some x => x | None => default end)
  | _ => Err AttributeError
  end.

(** [v[k]] for a string key. *)
Definition item (v : value) (k : string) : Res value :=
  match v with
  | VDict d => match lookup d k with Some x => Val x | None => Err (KeyError k) end
  | _ => Err TypeError
  end.

(** [v[0]] *)
Definition item0 (v : value) : Res value :=
  match v with
  | VList (x :: _) => Val x
  | VList [] => Err IndexError
  | VStr (String c _) => Val (VStr (String c ""))
  | VStr EmptyString => Err IndexError
  | VDict _ => Err (KeyError "0")
  | _ => Err TypeError
  end.

(** [len(v)] *)
Definition len (v : value) : Res Z :=
  match v with
  | VList l => Val (Z.of_nat (List.length l))
  | VDict d => Val (Z.of_nat (List.length d))
  | VStr s => Val (Z.of_nat (String.length s))
  | _ => Err TypeError
  end.

(** [k in v] for a string [k]. *)
Definition has (v : value) (k : string) : Res bool :=
  match v with
  | VDict d => Val (match lookup d k with Some _ => true | None => false end)
  | VList l =>
      Val (existsb (fun x => match x with
                             | VStr s => (s =? k)%string
                             | _ => false
                             end) l)
  | VStr s => Val (contains s k)
  | _ => Err TypeError
  end.

(** [v == s] for a string literal [s]. *)
Definition eq_str (v : value) (s : string) : bool :=
  match v with
  | VStr s' => (s' =? s)%string
  | _ => false
  end.

(** [float(n)] for an integer [n >= 0], as an integer again: [n] itself
    below [2^53], and above it the nearest integer with 53 significant
    bits, ties to the even one. *)
Definition to_double (n : Z) : Z :=
  if n <? 2 ^ 53 then n
  else
    let shift := Z.log2 n - 52 in
    let q := n / 2 ^ shift in
    let r := n mod 2 ^ shift in
    let half := 2 ^ (shift - 1) in
    let m := if r >? half then q + 1
             else if r =? half then (if Z.even q then q else q + 1)
             else q in
    m * 2 ^ shift.

(** [format(n / d, '.1f')] for an integer [n >= 0] and a power of two
    [d]: the quotient of two ints is the correctly rounded double, which
    for such a [d] is [to_double n / d] exactly, and the formatting rounds
    the exact value of that double to one decimal, ties to the even
    digit. *)
Definition format_1f (n d : Z) : string :=
  let x := to_double n in
  let q := (10 * x) / d in
  let r := (10 * x) mod d in
  let t := if 2 * r >? d then q + 1
           else if 2 * r =? d then (if Z.even q then q else q + 1)
           else q in
  str_int (t / 10) ++ "." ++ str_int (t mod 10).

End Py.

(** ** What the interpreter and the operating system decide

    Library calls whose behaviour is not the script's own: [pathlib],
    [os], [mimetypes], [base64] and [str] methods that depend on Unicode
    tables.  Each takes the path as the string the script holds. *)

Inductive DirEntry : Type :=
| EntryFile (entry_name : string) (entry_suffix : string) (entry_size : Z)
| EntryDir (entry_name : string)
| EntryOther (entry_name : string).

Record Runtime : Type := {
  resolve : string -> option string;      (* str(Path(p).resolve()); None: it raises *)
  exists_ : string -> Res bool;           (* Path(p).exists() *)
  is_dir : string -> Res bool;            (* Path(p).is_dir() *)
  st_size : string -> Res Z;              (* Path(p).stat().st_size *)
  suffix : string -> string;              (* Path(p).suffix *)
  name_of : string -> string;             (* Path(p).name *)
  lower : string -> string;               (* str.lower *)
  strip : string -> string;               (* str.strip *)
  split : option nat -> string -> list string;   (* str.split(maxsplit=...) *)
  guess_type : string -> option string;   (* mimetypes.guess_type(str(Path(p)))[0] *)
  read_bytes : string -> Res string;      (* open(p, 'rb').read() *)
  read_text : string -> Res string;       (* open(p, 'r', errors='ignore').read() *)
  b64encode : string -> string;           (* base64.b64encode(b).decode() *)
  iterdir : string -> Res (list DirEntry);       (* sorted(Path(p).iterdir()) *)
  str_value : value -> string;            (* str(v) *)
  str_exn : Exn -> string                 (* str(e) *)
}.

(** ** HTTP *)

Inductive Method : Type := POST | GET | DELETE.

Inductive Body : Type :=
| NoBody
| JsonBody (v : value)
| DataBody (d : string).

Record Request : Type := {
  method : Method;
  url : string;
  req_headers : list (string * string);
  body : Body;
  timeout : Z
}.

Record Response : Type := {
  status_code : Z;
  header : string -> option string;       (* response.headers.get *)
  text : string;
  json : Res value                        (* response.json() *)
}.

(** A call either comes back with a response or raises; either way it
    takes [latency] milliseconds of wall-clock time. *)
Inductive Reply : Type :=
| Responded (latency : N) (r : Response)
| Failed (latency : N) (e : Exn).

Definition latency_of (r : Reply) : N :=
  match r with
  | Responded l _ => l
  | Failed l _ => l
  end.

(** The remote, as seen by the script: what comes back for the [n]-th
    request of the run. *)
Definition Remote : Type := nat -> Request -> Reply.

(** ** The object and its state *)

Record FileInfo : Type := {
  info_uri : value;
  info_name : value;
  info_mime_type : string;
  info_size : Z
}.

(** The attributes set once in [__init__]. *)
Record GeminiChat : Type := {
  api_key : string;
  base_url : string;
  model : string;
  allowed_dirs : list string              (* str of each resolved directory *)
}.

(** The mutable attributes, and the world around them. *)
Record State : Type := {
  conversation_history : list value;
  uploaded_files : list (string * FileInfo);
  now : Z;                                (* time.time(), in milliseconds *)
  sent : list Request;                    (* requests issued, oldest first *)
  console : list string                   (* texts printed, oldest first *)
}.

Definition set_history (h : list value) (s : State) : State :=
  {| conversation_history := h; uploaded_files := uploaded_files s;
     now := now s; sent := sent s; console := console s |}.

Definition set_uploads (u : list (string * FileInfo)) (s : State) : State :=
  {| conversation_history := conversation_history s; uploaded_files := u;
     now := now s; sent := sent s; console := console s |}.

Definition advance (ms : Z) (s : State) : State :=
  {| conversation_history := conversation_history s;
     uploaded_files := uploaded_files s;
     now := now s + ms; sent := sent s; console := console s |}.

Definition record_request (rq : Request) (s : State) : State :=
  {| conversation_history := conversation_history s;
     uploaded_files := uploaded_files s;
     now := now s; sent := sent s ++ [rq]; console := console s |}.

Definition add_line (l : string) (s : State) : State :=
  {| conversation_history := conversation_history s;
     uploaded_files := uploaded_files s;
     now := now s; sent := sent s; console := console s ++ [l] |}.

(** ** The monad: state survives a raised exception *)

Inductive Outcome (A : Type) : Type :=
| Ok (a : A)
| Raise (e : Exn)
| OutOfFuel.
Arguments Ok {A} a.
Arguments Raise {A} e.
Arguments OutOfFuel {A}.

Definition M (A : Type) : Type := State -> Outcome A * State.

Definition ret {A : Type} (a : A) : M A := fun s => (Ok a, s).

Definition bind {A B : Type} (m : M A) (k : A -> M B) : M B :=
  fun s =>
    match m s with
    | (Ok a, s') => k a s'
    | (Raise e, s') => (Raise e, s')
    | (OutOfFuel, s') => (OutOfFuel, s')
    end.

Definition raise {A : Type} (e : Exn) : M A := fun s => (Raise e, s).

(** [try: m except Exception as e: h e] *)
Definition try_except {A : Type} (m : M A) (h : Exn -> M A) : M A :=
  fun s =>
    match m s with
    | (Raise e, s') => h e s'
    | other => other
    end.

Definition lift {A : Type} (r : Res A) : M A :=
  match r with
  | Val a => ret a
  | Err e => raise e
  end.

Definition get_state : M State := fun s => (Ok s, s).
Definition modify (f : State -> State) : M unit := fun s => (Ok tt, f s).

Declare Scope py_scope.
Delimit Scope py_scope with py.
Notation "x <- m ;; k" := (bind m (fun x => k))
  (at level 100, m at next level, right associativity) : py_scope.
Notation "m ;;; k" := (bind m (fun _ => k))
  (at level 100, right associativity) : py_scope.
Open Scope py_scope.

(** [print(line)], for a line the terminal takes.  The banner of the
    shell and the lines it makes from the data of a session go through
    [say] below. *)
Definition print (line : string) : M unit := modify (add_line line).

(** [time.sleep(seconds)] *)
Definition sleep (seconds : Z) : M unit := modify (advance (seconds * 1000)).

(** [requests.post / get / delete]: the request goes out, the clock moves
    by the latency, and the call returns the response or raises. *)
Definition http (rm : Remote) (rq : Request) : M Response :=
  fun s =>
    let reply := rm (List.length (sent s)) rq in
    let s' := advance (Z.of_N (latency_of reply)) (record_request rq s) in
    match reply with
    | Responded _ r => (Ok r, s')
    | Failed _ e => (Raise e, s')
    end.

(** ** The methods of [GeminiChat] *)

Definition nl : string := String (ascii_of_nat 10) "".

Definition in_set (x : string) (l : list string) : bool :=
  existsb (fun y => (y =? x)%string) l.

(** [__init__]: the allowed directories are resolved once; the history
    and the table of uploads start empty. *)
Definition init (rt : Runtime) (key : string) (dirs : list string)
  : option GeminiChat :=
  let fix resolve_all (l : list string) : option (list string) :=
    match l with
    | [] => Some []
    | d :: rest =>
        match resolve rt d, resolve_all rest with
        | Some r, Some rs => Some (r :: rs)
        | _, _ => None
        end
    end in
  match resolve_all (match dirs with [] => ["."] | _ => dirs end) with
  | Some rs =>
      Some {| api_key := key;
              base_url := "https://generativelanguage.googleapis.com/v1beta";
              model := "gemini-1.5-flash";
              allowed_dirs := rs |}
  | None => None
  end.

Definition initial_state (clock : Z) : State :=
  {| conversation_history := []; uploaded_files := [];
     now := clock; sent := []; console := [] |}.

(** [is_file_accessible] *)
Definition is_file_accessible (rt : Runtime) (self : GeminiChat)
  (file_path : string) : bool :=
  match resolve rt file_path with
  | Some resolved =>
      existsb (fun allowed_dir => Py.startswith resolved allowed_dir)
              (allowed_dirs self)
  | None => false
  end.

Definition video_formats : list (string * string) :=
  [ (".mp4", "video/mp4"); (".avi", "video/x-msvideo");
    (".mov", "video/quicktime"); (".mkv", "video/x-matroska");
    (".webm", "video/webm"); (".flv", "video/x-flv");
    (".wmv", "video/x-ms-wmv"); (".m4v", "video/mp4") ].

Definition max_size : Z := 2 * 1024 * 1024 * 1024.

Inductive UploadResult : Type :=
| UploadError (error : string)                   (* {"error": ...} *)
| Uploaded (uri : value) (mime_type : string).   (* {'uri': ..., 'mime_type': ...} *)

(** Which exit of [wait_for_file_processing] was taken.  Python returns
    [None] on each of them and the caller drops it; the tag only names
    the path for the theorems. *)
Inductive WaitExit : Type :=
| ExitNoName          (* [if not file_name: return] *)
| ExitActive          (* state == 'ACTIVE' *)
| ExitFailed          (* state == 'FAILED' *)
| ExitAborted         (* [break] after an exception *)
| ExitTimedOut.       (* the loop condition became false *)

Inductive Step : Type :=
| Continue
| Return (e : WaitExit)
| Break.

Definition status_request (rt : Runtime) (self : GeminiChat) (file_name : value)
  : Request :=
  {| method := GET;
     url := base_url self ++ "/files/" ++ str_value rt file_name
            ++ "?key=" ++ api_key self;
     req_headers := []; body := NoBody; timeout := 10 |}.

Definition timeout_warning : string := "⚠️ Processing timeout - continuing anyway".

(** One round of the [while] loop of [wait_for_file_processing]: the
    body of its [try], and the [except] that breaks out. *)
Definition poll_once (rt : Runtime) (rm : Remote) (self : GeminiChat)
  (file_name : value) : M Step :=
  try_except
    (response <- http rm (status_request rt self file_name) ;;
     if status_code response =? 200 then
       result <- lift (json response) ;;
       state <- lift (Py.get result "state" (VStr "PROCESSING")) ;;
       if Py.eq_str state "ACTIVE" then
         print "✅ Video processing complete!" ;;;
         ret (Return ExitActive)
       else if Py.eq_str state "FAILED" then
         print "❌ Video processing failed" ;;;
         ret (Return ExitFailed)
       else
         sleep 2 ;;; ret Continue
     else
       sleep 2 ;;; ret Continue)
    (fun e =>
       print ("⚠️ Error checking processing status: " ++ str_exn rt e) ;;;
       ret Break).

(** [while time.time() - start_time < max_wait: ...] followed by the
    final [print]. *)
Fixpoint wait_loop (fuel : nat) (rt : Runtime) (rm : Remote) (self : GeminiChat)
  (file_name : value) (max_wait start_time : Z) : M WaitExit :=
  fun s =>
    if now s - start_time <? max_wait * 1000 then
      match fuel with
      | O => (OutOfFuel, s)
      | S fuel' =>
          (step <- poll_once rt rm self file_name ;;
           match step with
           | Continue => wait_loop fuel' rt rm self file_name max_wait start_time
           | Return e => ret e
           | Break => print timeout_warning ;;; ret ExitAborted
           end) s
      end
    else
      (print timeout_warning ;;; ret ExitTimedOut) s.

(** [wait_for_file_processing].  Every round that goes on sleeps two
    seconds, so [max_wait] rounds are more than the loop can run. *)
Definition wait_for_file_processing (rt : Runtime) (rm : Remote)
  (self : GeminiChat) (file_name : value) (max_wait : Z) : M WaitExit :=
  if negb (Py.truthy file_name) then ret ExitNoName
  else
    s <- get_state ;;
    let start_time := now s in
    wait_loop (Z.to_nat max_wait) rt rm self file_name max_wait start_time.

Definition start_request (self : GeminiChat) (file_size : Z)
  (mime_type display_name : string) : Request :=
  {| method := POST;
     url := (base_url self ++ "/files") ++ "?key=" ++ api_key self;
     req_headers :=
       [ ("X-Goog-Upload-Protocol", "resumable");
         ("X-Goog-Upload-Command", "start");
         ("X-Goog-Upload-Header-Content-Length", Py.str_int file_size);
         ("X-Goog-Upload-Header-Content-Type", mime_type);
         ("Content-Type", "application/json") ];
     body := JsonBody (VDict [("file", VDict [("display_name", VStr display_name)])]);
     timeout := 30 |}.

Definition transfer_request (upload_session_url : string) (file_size : Z)
  (file_content : string) : Request :=
  {| method := POST;
     url := upload_session_url;
     req_headers :=
       [ ("Content-Length", Py.str_int file_size);
         ("X-Goog-Upload-Offset", "0");
         ("X-Goog-Upload-Command", "upload, finalize") ];
     body := DataBody file_content;
     timeout := 300 |}.

(** [result.get('file', {}).get(k)] *)
Definition file_field (result : value) (k : string) : M value :=
  file <- lift (Py.get result "file" (VDict [])) ;;
  lift (Py.get file k VNone).

(** The tail of [upload_file_to_gemini] reached when the transfer did
    not give status 200 and a file URI. *)
Definition upload_failed (response : Response) : M (option UploadResult) :=
  print ("Upload failed with status: " ++ Py.str_int (status_code response)) ;;;
  print ("Response: " ++ text response) ;;;
  ret (Some (UploadError ("Upload failed: " ++ Py.str_int (status_code response)
                          ++ " - " ++ text response))).

(** [upload_file_to_gemini].  ([mimetypes.guess_type] is called on line 47
    and its result overwritten before any use.) *)
Definition upload_file_to_gemini (rt : Runtime) (rm : Remote) (self : GeminiChat)
  (file_path : string) : M (option UploadResult) :=
  if negb (is_file_accessible rt self file_path) then ret None
  else
    try_except
      (present <- lift (exists_ rt file_path) ;;
       if negb present then ret None
       else
         match Py.lookup video_formats (lower rt (suffix rt file_path)) with
         | None => ret None
         | Some mime_type =>
             file_size <- lift (st_size rt file_path) ;;
             if file_size >? max_size then
               ret (Some (UploadError
                            ("File too large: "
                             ++ Py.format_1f file_size (1024 * 1024 * 1024)
                             ++ "GB (max 2GB)")))
             else
               print ("📤 Uploading video file ("
                      ++ Py.format_1f file_size (1024 * 1024) ++ "MB)...") ;;;
               response <- http rm (start_request self file_size mime_type
                                      (name_of rt file_path)) ;;
               if negb (status_code response =? 200) then
                 print ("Failed to start upload session: "
                        ++ Py.str_int (status_code response)) ;;;
                 print ("Response: " ++ text response) ;;;
                 ret (Some (UploadError ("Upload session failed: "
                                         ++ Py.str_int (status_code response))))
               else
                 match header response "X-Goog-Upload-URL" with
                 | None | Some EmptyString =>
                     ret (Some (UploadError "No upload URL received"))
                 | Some upload_session_url =>
                     file_content <- lift (read_bytes rt file_path) ;;
                     response <- http rm (transfer_request upload_session_url
                                            file_size file_content) ;;
                     if status_code response =? 200 then
                       result <- lift (json response) ;;
                       file_uri <- file_field result "uri" ;;
                       if Py.truthy file_uri then
                         name <- file_field result "name" ;;
                         modify (fun s =>
                           set_uploads
                             (Py.assign (uploaded_files s) file_path
                                {| info_uri := file_uri; info_name := name;
                                   info_mime_type := mime_type;
                                   info_size := file_size |}) s) ;;;
                         print "⏳ Processing video..." ;;;
                         name <- file_field result "name" ;;
                         _ <- wait_for_file_processing rt rm self name 300 ;;
                         ret (Some (Uploaded file_uri mime_type))
                       else upload_failed response
                     else upload_failed response
                 end
         end)
      (fun e =>
         print ("Exception during upload: " ++ str_exn rt e) ;;;
         ret (Some (UploadError ("Error uploading file: " ++ str_exn rt e)))).

(** [delete_uploaded_file] *)
Definition delete_uploaded_file (rt : Runtime) (rm : Remote) (self : GeminiChat)
  (file_name : value) : M bool :=
  try_except
    (response <- http rm
       {| method := DELETE;
          url := base_url self ++ "/files/" ++ str_value rt file_name
                 ++ "?key=" ++ api_key self;
          req_headers := []; body := NoBody; timeout := 10 |} ;;
     ret (status_code response =? 204))
    (fun _ => ret false).

Definition video_extensions : list string :=
  [".mp4"; ".avi"; ".mov"; ".mkv"; ".webm"; ".flv"; ".wmv"; ".m4v"].

Definition code_extensions : list string :=
  [".py"; ".js"; ".html"; ".css"; ".java"; ".cpp"; ".c";
   ".h"; ".json"; ".xml"; ".yaml"; ".yml"; ".md"; ".txt";
   ".sh"; ".bat"; ".ps1"; ".sql"; ".r"; ".php"; ".go";
   ".rs"; ".swift"; ".kt"; ".ts"; ".jsx"; ".tsx"; ".vue"].

Definition image_extensions : list string :=
  [".jpg"; ".jpeg"; ".png"; ".gif"; ".bmp"; ".webp"].

(** [mime_type and mime_type.startswith('text/')] *)
Definition is_text_mime (mime_type : option string) : bool :=
  match mime_type with
  | Some m => negb (m =? "")%string && Py.startswith m "text/"
  | None => false
  end.

(** [mime_type or default] *)
Definition mime_or (mime_type : option string) (default : string) : string :=
  match mime_type with
  | Some m => if (m =? "")%string then default else m
  | None => default
  end.

Definition text_part (t : string) : value := VDict [("text", VStr t)].

Definition file_text (file_path content : string) : value :=
  text_part ("File: " ++ file_path ++ nl ++ nl ++ content).

(** What [read_file_content] makes of the result of the upload. *)
Definition video_part (file_path : string) (upload_result : option UploadResult)
  : value :=
  match upload_result with
  | Some (Uploaded uri mime_type) =>
      VDict [("file_data",
              VDict [("file_uri", uri); ("mime_type", VStr mime_type)])]
  | Some (UploadError error) => text_part ("❌ " ++ error)
  | None => text_part ("❌ Failed to upload video: " ++ file_path)
  end.

(** [read_file_content] *)
Definition read_file_content (rt : Runtime) (rm : Remote) (self : GeminiChat)
  (file_path : string) : M (option value) :=
  if negb (is_file_accessible rt self file_path) then ret None
  else
    try_except
      (present <- lift (exists_ rt file_path) ;;
       if negb present then ret None
       else
         let mime_type := guess_type rt file_path in
         if in_set (lower rt (suffix rt file_path)) video_extensions then
           upload_result <- upload_file_to_gemini rt rm self file_path ;;
           ret (Some (video_part file_path upload_result))
         else if is_text_mime mime_type then
           content <- lift (read_text rt file_path) ;;
           ret (Some (file_text file_path content))
         else if in_set (lower rt (suffix rt file_path)) code_extensions then
           content <- lift (read_text rt file_path) ;;
           ret (Some (file_text file_path content))
         else if in_set (lower rt (suffix rt file_path)) image_extensions then
           raw <- lift (read_bytes rt file_path) ;;
           ret (Some (VDict
                  [("inline_data",
                    VDict [("mime_type",
                            VStr (mime_or mime_type
                                    ("image/" ++ Py.drop 1 (suffix rt file_path))));
                           ("data", VStr (b64encode rt raw))])]))
         else
           ret (Some (text_part
                  ("File exists: " ++ file_path ++ " (binary file, "
                   ++ mime_or mime_type "unknown type" ++ ")"))))
      (fun e =>
         ret (Some (text_part ("Error reading file " ++ file_path ++ ": "
                               ++ str_exn rt e)))).

(** The category of content [read_file_content] settles on: the chain of
    tests of lines 207-260, on the lower-cased suffix and the guessed
    mime type. *)
Inductive Category : Type := Video | TextLike | Image | Opaque.

Definition classify (ext : string) (mime_type : option string) : Category :=
  if in_set ext video_extensions then Video
  else if is_text_mime mime_type then TextLike
  else if in_set ext code_extensions then TextLike
  else if in_set ext image_extensions then Image
  else Opaque.

(** One line of the listing of [list_files]; [None] for an entry that is
    neither a file nor a directory. *)
Definition listing_line (rt : Runtime) (item : DirEntry) : option string :=
  match item with
  | EntryFile name sfx size =>
      if in_set (lower rt sfx) video_extensions then
        Some ("🎬 " ++ name ++ " (" ++ Py.format_1f size (1024 * 1024) ++ "MB)")
      else
        Some ("📄 " ++ name ++ " (" ++ Py.str_int size ++ " bytes)")
  | EntryDir name => Some ("📁 " ++ name ++ "/")
  | EntryOther _ => None
  end.

Fixpoint listing (rt : Runtime) (items : list DirEntry) : list string :=
  match items with
  | [] => []
  | item :: rest =>
      match listing_line rt item with
      | Some l => l :: listing rt rest
      | None => listing rt rest
      end
  end.

(** [list_files] *)
Definition list_files (rt : Runtime) (self : GeminiChat) (directory : string)
  : string :=
  if negb (is_file_accessible rt self directory) then
    "Directory " ++ directory ++ " is not accessible"
  else
    match exists_ rt directory with
    | Err e => "Error listing directory " ++ directory ++ ": " ++ str_exn rt e
    | Val false => "Directory " ++ directory ++ " does not exist"
    | Val true =>
        match is_dir rt directory with
        | Err e => "Error listing directory " ++ directory ++ ": " ++ str_exn rt e
        | Val false => "Directory " ++ directory ++ " does not exist"
        | Val true =>
            match iterdir rt directory with
            | Val items =>
                "Contents of " ++ directory ++ ":" ++ nl
                ++ Py.join nl (listing rt items)
            | Err e =>
                "Error listing directory " ++ directory ++ ": " ++ str_exn rt e
            end
        end
    end.

Definition user_turn (parts : list value) : value :=
  VDict [("role", VStr "user"); ("parts", VList parts)].

Definition model_turn (parts : list value) : value :=
  VDict [("role", VStr "model"); ("parts", VList parts)].

Definition text_value (v : value) : value := VDict [("text", v)].

Definition generation_config : value :=
  VDict [("temperature", VDec 7 1); ("topK", VInt 40);
         ("topP", VDec 95 2); ("maxOutputTokens", VInt 8192)].

Definition chat_request (self : GeminiChat) (contents : list value) : Request :=
  {| method := POST;
     url := (base_url self ++ "/models/" ++ model self ++ ":generateContent")
            ++ "?key=" ++ api_key self;
     req_headers := [("Content-Type", "application/json")];
     body := JsonBody (VDict [("contents", VList contents);
                              ("generationConfig", generation_config)]);
     timeout := 30 |}.

(** [result['candidates'][0]['content']['parts'][0]['text']] *)
Definition first_candidate_text (result : value) : Res value :=
  match Py.item result "candidates" with
  | Err e => Err e
  | Val candidates =>
  match Py.item0 candidates with
  | Err e => Err e
  | Val candidate =>
  match Py.item candidate "content" with
  | Err e => Err e
  | Val content =>
  match Py.item content "parts" with
  | Err e => Err e
  | Val parts =>
  match Py.item0 parts with
  | Err e => Err e
  | Val part => Py.item part "text"
  end end end end end.

Definition append_turn (turn : value) : M unit :=
  modify (fun s => set_history (conversation_history s ++ [turn]) s).

Definition no_response : string := "❌ No response generated".

(** [call_gemini] *)
Definition call_gemini (rt : Runtime) (rm : Remote) (self : GeminiChat)
  (message : string) : M value :=
  try_except
    (append_turn (user_turn [text_value (VStr message)]) ;;;
     s <- get_state ;;
     response <- http rm (chat_request self (conversation_history s)) ;;
     if status_code response =? 200 then
       result <- lift (json response) ;;
       present <- lift (Py.has result "candidates") ;;
       if present then
         candidates <- lift (Py.item result "candidates") ;;
         n <- lift (Py.len candidates) ;;
         if n >? 0 then
           ai_response <- lift (first_candidate_text result) ;;
           append_turn (model_turn [text_value ai_response]) ;;;
           ret ai_response
         else ret (VStr no_response)
       else ret (VStr no_response)
     else
       error_details <-
         (if Py.startswith
               (match header response "content-type" with
                | Some c => c
                | None => ""
                end) "application/json"
          then v <- lift (json response) ;; ret (str_value rt v)
          else ret (text response)) ;;
       ret (VStr ("❌ API Error (" ++ Py.str_int (status_code response) ++ "): "
                  ++ error_details)))
    (fun e =>
       match e with
       | Timeout _ => ret (VStr "❌ Request timed out. Please try again.")
       | RequestException _ => ret (VStr ("❌ Network error: " ++ str_exn rt e))
       | _ => ret (VStr ("❌ Error: " ++ str_exn rt e))
       end).

(** [show_help] *)
Definition show_help : string := "
🤖 Gemini Terminal Chat Commands:

💬 Chat Commands:
  • Just type your message to chat with Gemini
  • /clear - Clear conversation history

📁 File Commands:
  • /read <file_path> - Read and analyze a file (text, code, images, videos)
  • /ls [directory] - List files in directory (default: current)
  • /list [directory] - Same as /ls
  • /dirs - Show allowed directories

🎬 Video Commands:
  • /read video.mp4 - Upload and analyze video content
  • /uploads - Show currently uploaded files
  • /cleanup - Delete all uploaded files from Gemini

❓ Other:
  • /help - Show this help
  • /quit or /exit - Exit the chat
  • Ctrl+C - Exit

Supported Video Formats:
  • MP4, AVI, MOV, MKV, WebM, FLV, WMV, M4V
  • Max size: 2GB per video

Examples:
  • /read demo.mp4
  • /read presentation.mov  
  • What happens in this video?
  • Describe the key scenes in the video
  • Extract text from this video
        ".

(** The [for] loop of the [/cleanup] branch, over the snapshot
    [list(self.uploaded_files.items())]. *)
Fixpoint cleanup_loop (rt : Runtime) (rm : Remote) (self : GeminiChat)
  (items : list (string * FileInfo)) (cleaned : Z) : M Z :=
  match items with
  | [] => ret cleaned
  | (file_path, file_info) :: rest =>
      let file_name := info_name file_info in
      cleaned' <-
        (if Py.truthy file_name then
           deleted <- delete_uploaded_file rt rm self file_name ;;
           ret (if deleted then cleaned + 1 else cleaned)
         else ret cleaned) ;;
      modify (fun s => set_uploads (Py.remove (uploaded_files s) file_path) s) ;;;
      cleanup_loop rt rm self rest cleaned'
  end.

(** The list the [/uploads] branch builds. *)
Definition uploads_listing (rt : Runtime) (files : list (string * FileInfo))
  : list string :=
  map (fun entry =>
         "🎬 " ++ name_of rt (fst entry) ++ " ("
         ++ Py.format_1f (info_size (snd entry)) (1024 * 1024) ++ "MB)")
      files.

(** [process_message].  The value is what the method returns; [VNone] is
    Python's [None]. *)
Definition process_message (rt : Runtime) (rm : Remote) (self : GeminiChat)
  (user_input : string) : M value :=
  if Py.startswith user_input "/read " then
    let file_path := strip rt (Py.drop 6 user_input) in
    file_content <- read_file_content rt rm self file_path ;;
    match file_content with
    | Some part =>
        append_turn (user_turn [part]) ;;;
        call_gemini rt rm self
          ("I've shared the file " ++ file_path
           ++ " with you. Please analyze it and tell me about its contents.")
    | None => ret (VStr ("❌ Cannot access file: " ++ file_path))
    end
  else if Py.startswith user_input "/ls" || Py.startswith user_input "/list" then
    let directory :=
      if (1 <? List.length (split rt None user_input))%nat
      then nth 1 (split rt (Some 1%nat) user_input) "."
      else "." in
    ret (VStr (list_files rt self directory))
  else if Py.startswith user_input "/help" then
    ret (VStr show_help)
  else if Py.startswith user_input "/clear" then
    modify (set_history []) ;;;
    ret (VStr "🧹 Conversation history cleared")
  else if Py.startswith user_input "/cleanup" then
    s <- get_state ;;
    cleaned <- cleanup_loop rt rm self (uploaded_files s) 0 ;;
    ret (VStr ("🧹 Cleaned up " ++ Py.str_int cleaned ++ " uploaded files"))
  else if Py.startswith user_input "/uploads" then
    s <- get_state ;;
    match uploaded_files s with
    | [] => ret (VStr "📁 No uploaded files")
    | _ =>
        let files_info := uploads_listing rt (uploaded_files s) in
        ret VNone
    end
  else if Py.startswith user_input "/dirs" then
    ret (VStr ("📁 Allowed directories:" ++ nl ++ Py.join nl (allowed_dirs self)))
  else
    call_gemini rt rm self user_input.

(** What [input()] does at the prompt: it yields a line, or raises.  The
    end of the list is the end of the input ([EOFError]). *)
Inductive Input : Type :=
| Line (raw : string)
| Interrupt                              (* Ctrl+C while waiting for a line *)
| Unreadable (e : Exn).                  (* e.g. a line that does not decode *)

Definition exit_words : list string := ["/quit"; "/exit"; "quit"; "exit"].

Definition input_prompt : string := nl ++ "💬 You: ".

(** [print(text)] on a terminal that may be unable to take the text:
    [tty text] is what writing it does.  The shell prints this way what
    it makes from the data of a session, and its banner. *)
Definition say (tty : string -> Res unit) (text : string) : M unit :=
  lift (tty text) ;;;
  print text.

(** The [for] loop of the [KeyboardInterrupt] handler of [run]. *)
Fixpoint teardown (rt : Runtime) (rm : Remote) (self : GeminiChat)
  (items : list (string * FileInfo)) : M unit :=
  match items with
  | [] => ret tt
  | (_, file_info) :: rest =>
      let file_name := info_name file_info in
      (if Py.truthy file_name then
         _ <- delete_uploaded_file rt rm self file_name ;; ret tt
       else ret tt) ;;;
      teardown rt rm self rest
  end.

(** The [while True] loop of [run], on the inputs the user gives.  An
    exception that is neither [KeyboardInterrupt] nor [EOFError] leaves
    the loop for the outer [except]: one raised by [input()], by
    [process_message] or by [print(response)]. *)
Fixpoint run_loop (rt : Runtime) (rm : Remote) (self : GeminiChat)
  (tty : string -> Res unit) (inputs : list Input) : M unit :=
  match inputs with
  | [] =>
      print input_prompt ;;;
      print (nl ++ "👋 Goodbye!")
  | Interrupt :: _ =>
      print input_prompt ;;;
      print (nl ++ "🧹 Cleaning up uploaded files...") ;;;
      s <- get_state ;;
      teardown rt rm self (uploaded_files s) ;;;
      print "👋 Goodbye!"
  | Unreadable e :: _ =>
      print input_prompt ;;;
      raise e
  | Line raw :: rest =>
      print input_prompt ;;;
      let user_input := strip rt raw in
      if (user_input =? "")%string then run_loop rt rm self tty rest
      else if in_set (lower rt user_input) exit_words then print "👋 Goodbye!"
      else
        print (nl ++ "🤖 Gemini: ") ;;;
        response <- process_message rt rm self user_input ;;
        say tty (str_value rt response) ;;;
        run_loop rt rm self tty rest
  end.

Definition banner_rule : string := String.concat "" (repeat "=" 55).

(** [run].  The six lines of the banner are printed before the [try]:
    an exception raised there leaves [run]. *)
Definition run (rt : Runtime) (rm : Remote) (self : GeminiChat)
  (tty : string -> Res unit) (inputs : list Input) : M unit :=
  say tty "🤖 Gemini Terminal Chat with Video Support" ;;;
  say tty banner_rule ;;;
  say tty ("📁 Allowed directories: " ++ Py.join ", " (allowed_dirs self)) ;;;
  say tty "🎬 Supports: MP4, AVI, MOV, MKV, WebM, FLV, WMV, M4V" ;;;
  say tty "Type /help for commands or just start chatting!" ;;;
  say tty banner_rule ;;;
  try_except
    (run_loop rt rm self tty inputs)
    (fun e => say tty (nl ++ "❌ Unexpected error: " ++ str_exn rt e)).

(** How [main] ends when it returns: [sys.exit(code)] or falling off its
    end (status 0), or the constructor of [GeminiChat] raising while it
    resolves the directories.  An exception that leaves [run] leaves
    [main] too. *)
Inductive MainEnd : Type :=
| Exited (code : Z)
| Crashed.

(** [a or b] for two values that are a string or [None]. *)
Definition or_key (a b : option string) : option string :=
  match a with
  | Some x => if (x =? "")%string then b else Some x
  | None => b
  end.

(** [main], after [parse_args]: [arg_key] is [args.api_key], [env_key]
    is [os.getenv("GEMINI_API_KEY")], [dirs] is [args.dirs]. *)
Definition main (rt : Runtime) (rm : Remote) (tty : string -> Res unit)
  (arg_key env_key : option string) (dirs : list string) (inputs : list Input)
  : M MainEnd :=
  match or_key arg_key env_key with
  | None | Some EmptyString =>
      print "❌ Error: Please provide Gemini API key via --api-key or GEMINI_API_KEY environment variable" ;;;
      print "Get your API key from: https://makersuite.google.com/app/apikey" ;;;
      ret (Exited 1)
  | Some key =>
      match init rt key dirs with
      | None => ret Crashed
      | Some chat =>
          modify (fun s => set_uploads [] (set_history [] s)) ;;;
          run rt rm chat tty inputs ;;;
          ret (Exited 0)
      end
  end.

(** ** Observations and intermediate states

    Names for what the theorems speak about: what a reply reports, and
    the states the methods pass through. *)

(** What a step leaves alone: the history and the table of uploads. *)
Definition same_store (s s' : State) : Prop :=
  conversation_history s' = conversation_history s /\
  uploaded_files s' = uploaded_files s.

(** The status requests in a trace. *)
Definition polls (trace : list Request) : list Request :=
  filter (fun rq => match method rq with GET => true | _ => false end) trace.

(** The state the remote reports in answer to a status request, when the
    answer is a 200 whose body decodes to a dict. *)
Definition reported_state (reply : Reply) : option value :=
  match reply with
  | Responded _ r =>
      if status_code r =? 200 then
        match json r with
        | Val result =>
            match Py.get result "state" (VStr "PROCESSING") with
            | Val state => Some state
            | Err _ => None
            end
        | Err _ => None
        end
      else None
  | Failed _ _ => None
  end.

(** The state right after request [rq] came back. *)
Definition answered (rm : Remote) (rq : Request) (s : State) : State :=
  advance (Z.of_N (latency_of (rm (List.length (sent s)) rq)))
          (record_request rq s).

(** What is left of the polling budget, in milliseconds. *)
Definition remaining (max_wait start_time : Z) (s : State) : Z :=
  max_wait * 1000 - (now s - start_time).

(** The file passes the checks of [upload_file_to_gemini] that come
    before the size test. *)
Definition video_on_disk (rt : Runtime) (self : GeminiChat)
  (file_path mime_type : string) (file_size : Z) : Prop :=
  is_file_accessible rt self file_path = true /\
  exists_ rt file_path = Val true /\
  Py.lookup video_formats (lower rt (suffix rt file_path)) = Some mime_type /\
  st_size rt file_path = Val file_size.

(** The state after the line that announces the upload was printed. *)
Definition announced (file_size : Z) (s : State) : State :=
  add_line ("📤 Uploading video file ("
            ++ Py.format_1f file_size (1024 * 1024) ++ "MB)...") s.

Definition session_request (rt : Runtime) (self : GeminiChat)
  (file_path mime_type : string) (file_size : Z) : Request :=
  start_request self file_size mime_type (name_of rt file_path).

(** The replies of a session start and a content transfer that both went
    through, with what the script reads from them. *)
Record Handshake : Type := {
  session_latency : N;
  session_response : Response;
  location_head : ascii;                  (* the location is not empty *)
  location_tail : string;
  file_content : string;
  transfer_latency : N;
  transfer_response : Response;
  transfer_result : value;                (* the decoded body *)
  file_fields : list (string * value);    (* its 'file' entry *)
  file_uri : value
}.

Definition upload_session_url (h : Handshake) : string :=
  String (location_head h) (location_tail h).

Definition content_request (h : Handshake) (file_size : Z) : Request :=
  transfer_request (upload_session_url h) file_size (file_content h).

Definition handshake_done (rt : Runtime) (rm : Remote) (self : GeminiChat)
  (file_path mime_type : string) (file_size : Z) (s : State) (h : Handshake)
  : Prop :=
  rm (List.length (sent s)) (session_request rt self file_path mime_type file_size)
    = Responded (session_latency h) (session_response h) /\
  status_code (session_response h) = 200 /\
  header (session_response h) "X-Goog-Upload-URL" = Some (upload_session_url h) /\
  read_bytes rt file_path = Val (file_content h) /\
  rm (S (List.length (sent s))) (content_request h file_size)
    = Responded (transfer_latency h) (transfer_response h) /\
  status_code (transfer_response h) = 200 /\
  json (transfer_response h) = Val (transfer_result h) /\
  Py.get (transfer_result h) "file" (VDict []) = Val (VDict (file_fields h)) /\
  Py.lookup (file_fields h) "uri" = Some (file_uri h) /\
  Py.truthy (file_uri h) = true.

(** [result.get('file', {}).get('name')] *)
Definition remote_name (h : Handshake) : value :=
  match Py.lookup (file_fields h) "name" with
  | Some n => n
  | None => VNone
  end.

Definition file_record (h : Handshake) (mime_type : string) (file_size : Z)
  : FileInfo :=
  {| info_uri := file_uri h; info_name := remote_name h;
     info_mime_type := mime_type; info_size := file_size |}.

(** The state once the session request came back. *)
Definition session_answered (rt : Runtime) (self : GeminiChat)
  (file_path mime_type : string) (file_size : Z) (latency : N) (s : State)
  : State :=
  advance (Z.of_N latency)
    (record_request (session_request rt self file_path mime_type file_size)
       (announced file_size s)).

(** The state in which [wait_for_file_processing] is entered. *)
Definition processing_started (rt : Runtime) (self : GeminiChat)
  (file_path mime_type : string) (file_size : Z) (h : Handshake) (s : State)
  : State :=
  add_line "⏳ Processing video..."
    (set_uploads
       (Py.assign (uploaded_files s) file_path (file_record h mime_type file_size))
       (advance (Z.of_N (transfer_latency h))
          (record_request (content_request h file_size)
             (session_answered rt self file_path mime_type file_size
                (session_latency h) s)))).

(** The turn [call_gemini] appends for a prompt, and the request it
    sends from state [s]. *)
Definition prompt_turn (message : string) : value :=
  user_turn [text_value (VStr message)].

Definition prompt_request (self : GeminiChat) (message : string) (s : State)
  : Request :=
  chat_request self (conversation_history s ++ [prompt_turn message]).

(** The state once the chat request came back. *)
Definition chat_answered (rm : Remote) (self : GeminiChat) (message : string)
  (s : State) : State :=
  answered rm (prompt_request self message s)
    (set_history (conversation_history s ++ [prompt_turn message]) s).

(** The candidate text a reply carries, when [call_gemini] gets to it:
    status 200, a decoded body with a non-empty ['candidates'], and the
    path [[0]['content']['parts'][0]['text']] present. *)
Definition candidate_text (reply : Reply) : option value :=
  match reply with
  | Responded _ r =>
      if status_code r =? 200 then
        match json r with
        | Val result =>
            match Py.has result "candidates" with
            | Val true =>
                match Py.item result "candidates" with
                | Val candidates =>
                    match Py.len candidates with
                    | Val n =>
                        if n >? 0 then
                          match first_candidate_text result with
                          | Val v => Some v
                          | Err _ => None
                          end
                        else None
                    | Err _ => None
                    end
                | Err _ => None
                end
            | _ => None
            end
        | Err _ => None
        end
      else None
  | Failed _ _ => None
  end.


(** The contents a request carries to the chat endpoint: only chat
    requests have a JSON body with a ['contents'] list. *)
Definition contents_of (rq : Request) : option (list value) :=
  match body rq with
  | JsonBody (VDict d) =>
      match Py.lookup d "contents" with
      | Some (VList contents) => Some contents
      | _ => None
      end
  | _ => None
  end.

(** A request that is not a chat request. *)
Definition quiet (rq : Request) : Prop := contents_of rq = None.


(** The requests issued between two states all satisfy [P]. *)
Definition issues (P : Request -> Prop) (s s' : State) : Prop :=
  exists extra, sent s' = (sent s ++ extra)%list /\ Forall P extra.


(** The request [delete_uploaded_file] sends. *)
Definition delete_request (rt : Runtime) (self : GeminiChat) (file_name : value)
  : Request :=
  {| method := DELETE;
     url := base_url self ++ "/files/" ++ str_value rt file_name
            ++ "?key=" ++ api_key self;
     req_headers := []; body := NoBody; timeout := 10 |}.

(** The remote names of the records for which a deletion is attempted:
    those whose ['name'] is truthy. *)
Definition deletable (items : list (string * FileInfo)) : list value :=
  map (fun entry => info_name (snd entry))
      (filter (fun entry => Py.truthy (info_name (snd entry))) items).

(** The exception a status poll ends in, if it does: the request
    raises, the body of a 200 does not decode, or it decodes to something
    that is not a dict. *)
Definition poll_error (reply : Reply) : option Exn :=
  match reply with
  | Failed _ e => Some e
  | Responded _ r =>
      if status_code r =? 200 then
        match json r with
        | Err e => Some e
        | Val result =>
            match Py.get result "state" (VStr "PROCESSING") with
            | Err e => Some e
            | Val _ => None
            end
        end
      else None
  end.

(** A reply to a status poll after which the loop sleeps and goes on: a
    status other than 200, or a 200 whose state is neither ['ACTIVE'] nor
    ['FAILED']. *)
Definition keeps_waiting (reply : Reply) : bool :=
  match reply with
  | Failed _ _ => false
  | Responded _ r =>
      if status_code r =? 200 then
        match reported_state reply with
        | Some state =>
            negb (Py.eq_str state "ACTIVE") && negb (Py.eq_str state "FAILED")
        | None => false
        end
      else true
  end.

(** The inputs the router answers from local state alone. *)
Definition local_command (user_input : string) : bool :=
  Py.startswith user_input "/ls" || Py.startswith user_input "/list"
  || Py.startswith user_input "/help" || Py.startswith user_input "/uploads"
  || Py.startswith user_input "/dirs".

(** The last line of a session. *)
Definition goodbye (line : string) : Prop :=
  line = "👋 Goodbye!" \/ line = nl ++ "👋 Goodbye!".

(** The state after [k] rounds of the polling loop that went on: each is
    a status request followed by two seconds of sleep. *)
Fixpoint after_rounds (rm : Remote) (rq : Request) (k : nat) (s : State) : State :=
  match k with
  | O => s
  | S k' => after_rounds rm rq k' (advance 2000 (answered rm rq s))
  end.

(** A terminal that can be written to, whatever the text. *)
Definition writable (tty : string -> Res unit) : Prop :=
  forall text, tty text = Val tt.

(** An input that [input()] could read. *)
Definition readable (i : Input) : Prop :=
  match i with
  | Unreadable _ => False
  | _ => True
  end.

(** The six lines [run] prints before its [try]. *)
Definition banner (self : GeminiChat) : list string :=
  ["🤖 Gemini Terminal Chat with Video Support";
   banner_rule;
   "📁 Allowed directories: " ++ Py.join ", " (allowed_dirs self);
   "🎬 Supports: MP4, AVI, MOV, MKV, WebM, FLV, WMV, M4V";
   "Type /help for commands or just start chatting!";
   banner_rule].

(** A line the terminal takes. *)
Definition written (tty : string -> Res unit) (line : string) : Prop :=
  tty line = Val tt.

(** ** A sample machine and sample remotes

    A POSIX file system without symbolic links, ASCII file names, and the
    replies of a remote given as a script.  The theorems do not depend on
    it; it is the ground on which they are run. *)

Module Sample.

Definition cwd : string := "/srv/app".

Fixpoint split_on (sep : ascii) (s : string) : list string :=
  match s with
  | EmptyString => [""]
  | String c rest =>
      if Ascii.eqb c sep then "" :: split_on sep rest
      else match split_on sep rest with
           | w :: ws => String c w :: ws
           | [] => [String c ""]
           end
  end.

Definition step_component (stack : list string) (component : string)
  : list string :=
  if (component =? "")%string || (component =? ".")%string then stack
  else if (component =? "..")%string then tl stack
  else component :: stack.

(** [os.path.normpath] of an absolute path: what [Path.resolve()] gives
    where no component is a symbolic link.  Resolution is not strict:
    components that do not exist are kept as they are. *)
Definition normalize (absolute : string) : string :=
  "/" ++ Py.join "/" (rev (fold_left step_component (split_on "/" absolute) [])).

Definition nul : string := String (ascii_of_nat 0) "".

(** [Path(p).resolve()] raises [ValueError] on an embedded null byte. *)
Definition sample_resolve (p : string) : option string :=
  if Py.contains p nul then None
  else if Py.startswith p "/" then Some (normalize p)
  else Some (normalize (cwd ++ "/" ++ p)).

Inductive Node : Type :=
| Directory
| File (content : string)
| Sparse (size : Z).          (* a file too large to spell out *)

Definition disk : list (string * Node) :=
  [ ("/etc", Directory);
    ("/etc/passwd", File "root:x:0:0:root:/root:/bin/sh");
    ("/srv", Directory);
    ("/srv/app", Directory);
    ("/srv/app/clip.mp4", File "....ftypisom....moov....mdat");
    ("/srv/app/huge.mp4", Sparse (3 * 1024 * 1024 * 1024));
    ("/srv/app/notes.txt", File "remember the milk");
    ("/srv/app-private", Directory);
    ("/srv/app-private/key.txt", File "hunter2") ].

Definition node_at (p : string) : option Node :=
  match sample_resolve p with
  | Some resolved => Py.lookup disk resolved
  | None => None
  end.

(** A component longer than 255 bytes makes the system calls fail. *)
Definition name_too_long (p : string) : bool :=
  existsb (fun c => (255 <? String.length c)%nat) (split_on "/" p).

Definition sample_exists (p : string) : Res bool :=
  if name_too_long p
  then Err (OSError ("[Errno 36] File name too long: '" ++ p ++ "'"))
  else Val (match node_at p with Some _ => true | None => false end).

Definition sample_is_dir (p : string) : Res bool :=
  if name_too_long p
  then Err (OSError ("[Errno 36] File name too long: '" ++ p ++ "'"))
  else Val (match node_at p with Some Directory => true | _ => false end).

Definition node_size (n : Node) : Z :=
  match n with
  | Directory => 4096
  | File content => Z.of_nat (String.length content)
  | Sparse size => size
  end.

Definition sample_st_size (p : string) : Res Z :=
  match node_at p with
  | Some n => Val (node_size n)
  | None => Err (OSError ("[Errno 2] No such file or directory: '" ++ p ++ "'"))
  end.

Definition sample_read (p : string) : Res string :=
  match node_at p with
  | Some (File content) => Val content
  | Some Directory => Err (OSError ("[Errno 21] Is a directory: '" ++ p ++ "'"))
  | Some (Sparse _) => Err (OSError "[Errno 12] Cannot allocate memory")
  | None => Err (OSError ("[Errno 2] No such file or directory: '" ++ p ++ "'"))
  end.

(** [Path(p).name]: the last component. *)
Definition sample_name (p : string) : string :=
  last (filter (fun c => negb ((c =? "")%string || (c =? ".")%string))
               (split_on "/" p)) "".

Fixpoint from_last_dot (s : string) : option string :=
  match s with
  | EmptyString => None
  | String c rest =>
      match from_last_dot rest with
      | Some sfx => Some sfx
      | None => if Ascii.eqb c "." then Some (String c rest) else None
      end
  end.

(** [Path(p).suffix]: from the last dot of the name, unless that dot is
    the first or the last character. *)
Definition sample_suffix (p : string) : string :=
  match sample_name p with
  | EmptyString => ""
  | String _ rest =>
      match from_last_dot rest with
      | Some sfx => if (sfx =? ".")%string then "" else sfx
      | None => ""
      end
  end.

Definition lower_ascii (c : ascii) : ascii :=
  let n := nat_of_ascii c in
  if ((65 <=? n) && (n <=? 90))%nat then ascii_of_nat (n + 32) else c.

Fixpoint sample_lower (s : string) : string :=
  match s with
  | EmptyString => EmptyString
  | String c rest => String (lower_ascii c) (sample_lower rest)
  end.

Definition is_space (c : ascii) : bool :=
  let n := nat_of_ascii c in
  ((n =? 32) || ((9 <=? n) && (n <=? 13)))%nat.

Fixpoint lstrip (s : string) : string :=
  match s with
  | EmptyString => EmptyString
  | String c rest => if is_space c then lstrip rest else s
  end.

Fixpoint rstrip (s : string) : string :=
  match s with
  | EmptyString => EmptyString
  | String c rest =>
      match rstrip rest with
      | EmptyString => if is_space c then EmptyString else String c EmptyString
      | kept => String c kept
      end
  end.

Definition sample_strip (s : string) : string := rstrip (lstrip s).

(** The first word of a string that starts with one, and what follows. *)
Fixpoint take_word (s : string) : string * string :=
  match s with
  | EmptyString => (EmptyString, EmptyString)
  | String c rest =>
      if is_space c then (EmptyString, s)
      else let (w, tail) := take_word rest in (String c w, tail)
  end.

Fixpoint split_words (fuel : nat) (maxsplit : option nat) (s : string)
  : list string :=
  match fuel with
  | O => []
  | S fuel' =>
      let t := lstrip s in
      if (t =? "")%string then []
      else
        match maxsplit with
        | Some O => [t]
        | _ =>
            let (w, tail) := take_word t in
            w :: split_words fuel' (option_map Nat.pred maxsplit) tail
        end
  end.

Definition sample_split (maxsplit : option nat) (s : string) : list string :=
  split_words (S (String.length s)) maxsplit s.

Definition mime_table : list (string * string) :=
  [ (".txt", "text/plain"); (".html", "text/html"); (".css", "text/css");
    (".py", "text/x-python"); (".json", "application/json");
    (".png", "image/png"); (".jpg", "image/jpeg"); (".gif", "image/gif");
    (".mp4", "video/mp4"); (".mov", "video/quicktime");
    (".webm", "video/webm"); (".avi", "video/x-msvideo") ].

Definition sample_guess_type (p : string) : option string :=
  Py.lookup mime_table (sample_lower (sample_suffix p)).

Definition b64_alphabet : string :=
  "ABCDEFGHIJKLMNOPQRSTUVWXYZabcdefghijklmnopqrstuvwxyz0123456789+/".

Definition b64_char (n : nat) : string :=
  match String.get n b64_alphabet with
  | Some c => String c ""
  | None => ""
  end.

Fixpoint sample_b64encode (s : string) : string :=
  match s with
  | EmptyString => ""
  | String a EmptyString =>
      let x := nat_of_ascii a in
      b64_char (x / 4) ++ b64_char (x mod 4 * 16) ++ "=="
  | String a (String b EmptyString) =>
      let x := nat_of_ascii a in
      let y := nat_of_ascii b in
      b64_char (x / 4) ++ b64_char (x mod 4 * 16 + y / 16)
      ++ b64_char (y mod 16 * 4) ++ "="
  | String a (String b (String c rest)) =>
      let x := nat_of_ascii a in
      let y := nat_of_ascii b in
      let z := nat_of_ascii c in
      b64_char (x / 4) ++ b64_char (x mod 4 * 16 + y / 16)
      ++ b64_char (y mod 16 * 4 + z / 64) ++ b64_char (z mod 64)
      ++ sample_b64encode rest
  end%nat.

(** The entries of a directory, in the order of [disk] (which is sorted). *)
Definition sample_iterdir (p : string) : Res (list DirEntry) :=
  match sample_resolve p with
  | None => Err (ValueError "embedded null byte")
  | Some dir =>
      Val (flat_map
             (fun entry =>
                let path := fst entry in
                if Py.startswith path (dir ++ "/")
                   && negb (Py.contains (Py.drop (String.length dir + 1) path) "/")
                then
                  match snd entry with
                  | Directory => [EntryDir (sample_name path)]
                  | n => [EntryFile (sample_name path) (sample_suffix path)
                                    (node_size n)]
                  end
                else [])
             disk)
  end.

(** [str(v)], for the values the samples hold. *)
Definition sample_str_value (v : value) : string :=
  match v with
  | VNone => "None"
  | VBool true => "True"
  | VBool false => "False"
  | VInt z => Py.str_int z
  | VStr s => s
  | VDec _ _ => "<float>"
  | VList _ => "<list>"
  | VDict _ => "<dict>"
  end.

Definition sample_str_exn (e : Exn) : string :=
  match e with
  | Timeout detail | RequestException detail | OSError detail
  | ValueError detail => detail
  | KeyError key => "'" ++ key ++ "'"
  | IndexError => "list index out of range"
  | TypeError => "string indices must be integers"
  | AttributeError => "object has no attribute 'get'"
  end.

(** A terminal that encodes every text. *)
Definition terminal (text : string) : Res unit := Val tt.

(** A terminal that cannot encode the texts that hold [mark]. *)
Definition terminal_without (mark : string) (text : string) : Res unit :=
  if Py.contains text mark
  then Err (ValueError "'utf-8' codec can't encode character: surrogates not allowed")
  else Val tt.

Definition machine : Runtime :=
  {| resolve := sample_resolve;
     exists_ := sample_exists;
     is_dir := sample_is_dir;
     st_size := sample_st_size;
     suffix := sample_suffix;
     name_of := sample_name;
     lower := sample_lower;
     strip := sample_strip;
     split := sample_split;
     guess_type := sample_guess_type;
     read_bytes := sample_read;
     read_text := sample_read;
     b64encode := sample_b64encode;
     iterdir := sample_iterdir;
     str_value := sample_str_value;
     str_exn := sample_str_exn |}.

(** [GeminiChat("k", ["."])] started in [cwd]. *)
Definition chat : GeminiChat :=
  {| api_key := "k";
     base_url := "https://generativelanguage.googleapis.com/v1beta";
     model := "gemini-1.5-flash";
     allowed_dirs := ["/srv/app"] |}.

Definition fresh : State := initial_state 0.

(** A response with the given status, headers, body text and decoded
    body. *)
Definition response (status : Z) (headers : list (string * string))
  (body_text : string) (decoded : Res value) : Response :=
  {| status_code := status;
     header := fun k => Py.lookup
                          (map (fun h => (sample_lower (fst h), snd h)) headers)
                          (sample_lower k);
     text := body_text;
     json := decoded |}.

Definition not_json : Res value :=
  Err (ValueError "Expecting value: line 1 column 1 (char 0)").

(** A remote that answers the first requests from a script and every
    later one with [rest]. *)
Definition scripted (script : list Reply) (rest : Reply) : Remote :=
  fun n _ => nth n script rest.

Definition refused : Reply :=
  Failed 0 (RequestException "Connection refused").

Definition opened : Response :=
  response 200 [("X-Goog-Upload-URL", "https://upload.example/session/1")]
    "" not_json.

Definition session_opened : Reply := Responded 120 opened.

Definition remote_uri : value :=
  VStr "https://generativelanguage.googleapis.com/v1beta/files/abc123".

Definition stored_fields : list (string * value) :=
  [("name", VStr "files/abc123"); ("uri", remote_uri);
   ("state", VStr "PROCESSING")].

Definition stored : value := VDict [("file", VDict stored_fields)].

Definition stored_response : Response := response 200 [] "{...}" (Val stored).

Definition content_stored : Reply := Responded 900 stored_response.

(** What the script reads from these two replies for [clip.mp4]. *)
Definition handshake : Handshake :=
  {| session_latency := 120;
     session_response := opened;
     location_head := "h";
     location_tail := "ttps://upload.example/session/1";
     file_content := "....ftypisom....moov....mdat";
     transfer_latency := 900;
     transfer_response := stored_response;
     transfer_result := stored;
     file_fields := stored_fields;
     file_uri := remote_uri |}.

Definition status_reply (latency : N) (state : string) : Reply :=
  Responded latency
    (response 200 [] "{...}"
       (Val (VDict [("name", VStr "files/abc123"); ("state", VStr state)]))).

(** A remote that answers status requests with [status] and the other
    requests from a script. *)
Definition server (script : list Reply) (status : Reply) : Remote :=
  fun n rq =>
    match method rq with
    | GET => status
    | _ => nth n script refused
    end.

(** The upload goes through, and every status poll says [state] after
    [latency] milliseconds. *)
Definition upload_then (latency : N) (state : string) : Remote :=
  server [session_opened; content_stored] (status_reply latency state).

(** The upload goes through; the first [rounds] status polls say
    [PROCESSING] and every later one [FAILED]. *)
Definition fails_after (rounds : nat) : Remote :=
  fun n rq =>
    match method rq with
    | GET => if (n <? 2 + rounds)%nat then status_reply 40 "PROCESSING"
             else status_reply 40 "FAILED"
    | _ => nth n [session_opened; content_stored] refused
    end.

(** The upload goes through with a reply that names no file. *)
Definition unnamed_fields : list (string * value) := [("uri", remote_uri)].

Definition unnamed_upload : Remote :=
  scripted [session_opened;
            Responded 900 (response 200 [] "{...}"
                             (Val (VDict [("file", VDict unnamed_fields)])))]
           (status_reply 0 "PROCESSING").

Definition quota_body : string := "quota exceeded for project".

(** The session request is turned down with a 500. *)
Definition session_refused : Remote :=
  scripted [Responded 80 (response 500 [] quota_body not_json)] refused.

(** The session request gets a 200 that names no upload location. *)
Definition session_without_location : Remote :=
  scripted [Responded 80 (response 200 [] "{}" (Val (VDict [])))] refused.

Definition reply_hi : value :=
  VDict [("candidates",
          VList [VDict [("content",
                         VDict [("parts", VList [VDict [("text", VStr "hi")]]);
                                ("role", VStr "model")])]])].

(** A lone surrogate, as a decoded JSON escape leaves it in a text. *)
Definition surrogate : string :=
  String (ascii_of_nat 237) (String (ascii_of_nat 160) (String (ascii_of_nat 128) "")).

(** The chat endpoint answers 200 with a first-candidate text that holds
    a lone surrogate. *)
Definition says_surrogate : Remote :=
  scripted []
    (Responded 300
       (response 200 [("Content-Type", "application/json")] "{...}"
          (Val (VDict [("candidates",
                        VList [VDict [("content",
                                       VDict [("parts",
                                               VList [VDict [("text",
                                                              VStr ("a" ++ surrogate))]]);
                                              ("role", VStr "model")])]])])))).

(** The chat endpoint answers 200 with first-candidate text ["hi"]. *)
Definition says_hi : Remote :=
  scripted [] (Responded 300 (response 200 [("Content-Type", "application/json")]
                                "{...}" (Val reply_hi))).


(** A state with one turn of history and one uploaded file. *)
Definition busy : State :=
  {| conversation_history := [user_turn [text_value (VStr "hello")]];
     uploaded_files :=
       [("clip.mp4",
         {| info_uri := remote_uri;
            info_name := VStr "files/abc123";
            info_mime_type := "video/mp4";
            info_size := 28 |})];
     now := 0; sent := []; console := [] |}.

(** Every [DELETE] is answered with 204, everything else is refused. *)
Definition deleting : Remote :=
  fun _ rq =>
    match method rq with
    | DELETE => Responded 30 (response 204 [] "" not_json)
    | _ => refused
    end.


(** The upload goes through, and every status poll times out. *)
Definition status_unreachable : Remote :=
  server [session_opened; content_stored] (Failed 10000 (Timeout "Read timed out."))%N.

(** The upload goes through, and the status endpoint answers 500. *)
Definition status_broken : Remote :=
  server [session_opened; content_stored]
    (Responded 50 (response 500 [] "oops" not_json)).

End Sample.

(** * The sample machine at work *)

Example sample_init : init Sample.machine "k" ["."] = Some Sample.chat.
Proof. reflexivity. Qed.

Example sample_listing :
  list_files Sample.machine Sample.chat "."
  = "Contents of .:" ++ nl
    ++ "🎬 clip.mp4 (0.0MB)" ++ nl
    ++ "🎬 huge.mp4 (3072.0MB)" ++ nl
    ++ "📄 notes.txt (17 bytes)".
Proof. reflexivity. Qed.

Example sample_format :
  Py.format_1f 5242880 (1024 * 1024) = "5.0" /\
  Py.format_1f 268435456 (1024 * 1024 * 1024) = "0.2" /\
  Py.format_1f 805306368 (1024 * 1024 * 1024) = "0.8".
Proof. repeat split; reflexivity. Qed.

(** Above [2^53] bytes the size is rounded to a double before it is
    divided: 9007199523176449 becomes 9007199523176448, whose quotient
    by [2^30] is 8388608.25 exactly, and the tie goes to the even digit. *)
Example sample_format_of_a_double :
  Py.to_double 9007199523176449 = 9007199523176448 /\
  Py.format_1f 9007199523176449 (1024 * 1024 * 1024) = "8388608.2" /\
  Py.format_1f (2 ^ 53 + 1) (1024 * 1024) = "8589934592.0" /\
  Py.format_1f (2 ^ 53 + 3) 1 = "9007199254740996.0".
Proof. repeat split; vm_compute; reflexivity. Qed.

Example sample_outside :
  process_message Sample.machine (Sample.scripted [] Sample.refused)
    Sample.chat "/read ../../etc/passwd" Sample.fresh
  = (Ok (VStr "❌ Cannot access file: ../../etc/passwd"), Sample.fresh).
Proof. reflexivity. Qed.

(** A remote that reports [ACTIVE] on the first poll: one status
    request, and the reference is returned. *)
Example sample_active :
  fst (upload_file_to_gemini Sample.machine (Sample.upload_then 40 "ACTIVE")
         Sample.chat "clip.mp4" Sample.fresh)
    = Ok (Some (Uploaded Sample.remote_uri "video/mp4")) /\
  List.length
    (polls (sent (snd (upload_file_to_gemini Sample.machine
                         (Sample.upload_then 40 "ACTIVE")
                         Sample.chat "clip.mp4" Sample.fresh)))) = 1%nat.
Proof. split; vm_compute; reflexivity. Qed.

(** A name of 300 characters: [Path.exists()] raises, and the [except]
    of [read_file_content] makes a part of the error. *)
Example sample_long_name :
  let long_name := String.concat "" (repeat "a" 300) in
  is_file_accessible Sample.machine Sample.chat long_name = true /\
  fst (read_file_content Sample.machine (Sample.scripted [] Sample.refused)
         Sample.chat long_name Sample.fresh)
    = Ok (Some (text_part ("Error reading file " ++ long_name
                           ++ ": [Errno 36] File name too long: '"
                           ++ long_name ++ "'"))) /\
  list_files Sample.machine Sample.chat long_name
    = "Error listing directory " ++ long_name
      ++ ": [Errno 36] File name too long: '" ++ long_name ++ "'".
Proof. cbv zeta. repeat split; vm_compute; reflexivity. Qed.

(** A transfer reply that names no file: no status request, no warning. *)
Example sample_unnamed_upload :
  let outcome :=
    upload_file_to_gemini Sample.machine Sample.unnamed_upload Sample.chat
      "clip.mp4" Sample.fresh in
  fst outcome = Ok (Some (Uploaded Sample.remote_uri "video/mp4")) /\
  polls (sent (snd outcome)) = [] /\
  console (snd outcome)
    = ["📤 Uploading video file (0.0MB)..."; "⏳ Processing video..."].
Proof. cbv zeta. repeat split; vm_compute; reflexivity. Qed.

(** A reply that the terminal cannot encode: [print(response)] raises,
    the handler of [run] reports it, and no goodbye is printed. *)
Example sample_unprintable_reply :
  let outcome :=
    run Sample.machine Sample.says_surrogate Sample.chat
      (Sample.terminal_without Sample.surrogate)
      [Line "hello"; Line "quit"] Sample.fresh in
  fst outcome = Ok tt /\
  last (console (snd outcome)) ""
    = nl ++ "❌ Unexpected error: 'utf-8' codec can't encode character: "
         ++ "surrogates not allowed".
Proof. cbv zeta. split; vm_compute; reflexivity. Qed.

(** * Properties *)

(** ** Strings and tables *)

Lemma startswith_iff (s p : string) :
  Py.startswith s p = true <-> exists t, s = p ++ t.
Proof.
  unfold Py.startswith. revert s.
  induction p as [|a p IH]; intros s.
  - destruct s; simpl; split; eauto.
  - destruct s as [|b s]; simpl.
    + split; [discriminate | intros [t Ht]; discriminate].
    + destruct (ascii_dec a b) as [->|Hne].
      * rewrite IH. split; intros [t Ht]; exists t.
        -- now rewrite Ht.
        -- now inversion Ht.
      * split; [discriminate | intros [t Ht]; inversion Ht; congruence].
Qed.

Lemma in_set_keys_lookup {A : Type} (d : list (string * A)) (k : string) :
  in_set k (map fst d) = true <-> exists v, Py.lookup d k = Some v.
Proof.
  unfold in_set. induction d as [|[k' v'] d IH]; simpl.
  - split; [discriminate | intros [v Hv]; discriminate].
  - destruct (k' =? k)%string; simpl.
    + split; eauto.
    + exact IH.
Qed.

Lemma in_set_In (x : string) (l : list string) :
  in_set x l = true <-> In x l.
Proof.
  unfold in_set. rewrite existsb_exists. split.
  - intros (y & Hin & Heq). apply String.eqb_eq in Heq. now subst.
  - intros Hin. exists x. split; [exact Hin | apply String.eqb_refl].
Qed.

Lemma video_extensions_keys : video_extensions = map fst video_formats.
Proof. reflexivity. Qed.

Lemma video_format_extension (ext mime_type : string) :
  Py.lookup video_formats ext = Some mime_type ->
  in_set ext video_extensions = true.
Proof.
  intros H. rewrite video_extensions_keys. apply in_set_keys_lookup. eauto.
Qed.

Lemma bind_lift_val {A B : Type} (v : A) (k : A -> M B) :
  (x <- lift (Val v) ;; k x) = k v.
Proof. reflexivity. Qed.

Lemma bind_lift_err {A B : Type} (e : Exn) (k : A -> M B) :
  (x <- lift (Err e) ;; k x) = raise e.
Proof. reflexivity. Qed.

Lemma same_store_refl s : same_store s s.
Proof. split; reflexivity. Qed.

(** Case analysis on a scrutinee of the goal that holds no further
    [match]: the innermost decisions first. *)
Ltac break_match :=
  match goal with
  | |- context [match ?x with _ => _ end] =>
      lazymatch x with
      | context [match _ with _ => _ end] => fail
      | _ => destruct x eqn:?
      end
  end.

Ltac run_monad :=
  unfold append_turn, try_except, bind, http, lift, print, sleep, modify,
    get_state, ret, raise.

(** ** The polling loop *)

(** A round never raises; it issues exactly one request, and when the
    loop goes on the clock has moved by the latency plus the two seconds
    of sleep. *)
Lemma poll_once_round rt rm self file_name s :
  exists step s',
    poll_once rt rm self file_name s = (Ok step, s') /\
    sent s' = (sent s ++ [status_request rt self file_name])%list /\
    same_store s s' /\
    (step = Continue ->
     now s' = now s
              + Z.of_N (latency_of (rm (List.length (sent s))
                                       (status_request rt self file_name)))
              + 2000).
Proof.
  unfold poll_once. run_monad.
  repeat (break_match; simpl in *);
    do 2 eexists; (split; [reflexivity|]); simpl;
    (split; [reflexivity|]); (split; [split; reflexivity|]);
    intros; try discriminate; simpl; lia.
Qed.

Section Polling.

Variables (rt : Runtime) (rm : Remote) (self : GeminiChat) (file_name : value).

Local Notation status := (status_request rt self file_name).

Ltac by_reported_state H :=
  unfold reported_state, answered, poll_once; run_monad;
  intros H; repeat (break_match; simpl in *; try discriminate);
  inversion H; subst; simpl in *; try discriminate; reflexivity.

Lemma poll_once_failed s :
  reported_state (rm (List.length (sent s)) status) = Some (VStr "FAILED") ->
  poll_once rt rm self file_name s =
    (Ok (Return ExitFailed),
     add_line "❌ Video processing failed" (answered rm status s)).
Proof. by_reported_state H. Qed.

Lemma poll_once_active s :
  reported_state (rm (List.length (sent s)) status) = Some (VStr "ACTIVE") ->
  poll_once rt rm self file_name s =
    (Ok (Return ExitActive),
     add_line "✅ Video processing complete!" (answered rm status s)).
Proof. by_reported_state H. Qed.

Lemma poll_once_processing s :
  reported_state (rm (List.length (sent s)) status) = Some (VStr "PROCESSING") ->
  poll_once rt rm self file_name s =
    (Ok Continue, advance 2000 (answered rm status s)).
Proof. by_reported_state H. Qed.

Lemma poll_once_goes_on s :
  keeps_waiting (rm (List.length (sent s)) status) = true ->
  poll_once rt rm self file_name s =
    (Ok Continue, advance 2000 (answered rm status s)).
Proof.
  unfold keeps_waiting, reported_state, answered, poll_once. run_monad.
  intros H. repeat (break_match; simpl in *; try discriminate).
  all: try reflexivity.
  all: repeat match goal with
              | E : Some _ = Some _ |- _ => inversion E; subst; clear E
              end;
       simpl in *; try congruence.
Qed.

Lemma processing_keeps_waiting reply :
  reported_state reply = Some (VStr "PROCESSING") -> keeps_waiting reply = true.
Proof.
  unfold keeps_waiting. intros H. rewrite H.
  unfold reported_state in H.
  destruct reply as [latency r|latency e]; [|discriminate].
  destruct (status_code r =? 200); reflexivity.
Qed.

(** [k] rounds that went on: [k] status requests, nothing printed, the
    stores untouched, and at least two seconds on the clock for each. *)
Lemma after_rounds_trace k :
  forall s,
    sent (after_rounds rm status k s) = (sent s ++ repeat status k)%list /\
    console (after_rounds rm status k s) = console s /\
    same_store s (after_rounds rm status k s) /\
    now s + 2000 * Z.of_nat k <= now (after_rounds rm status k s) /\
    ((forall i, latency_of (rm i status) = 0%N) ->
     now (after_rounds rm status k s) = now s + 2000 * Z.of_nat k).
Proof.
  induction k as [|k IH]; intros s.
  - cbn [after_rounds repeat]. rewrite app_nil_r.
    repeat split; try reflexivity; intros; lia.
  - cbn [after_rounds].
    destruct (IH (advance 2000 (answered rm status s)))
      as (Hsent & Hcons & [Hh Hu] & Hnow & Hzero).
    unfold answered in *.
    cbn [sent console now conversation_history uploaded_files
         advance record_request] in *.
    repeat split; try assumption.
    + rewrite Hsent, <- app_assoc. reflexivity.
    + lia.
    + intros Hlat. rewrite (Hzero Hlat), (Hlat (List.length (sent s))). lia.
Qed.

Variables (max_wait start_time : Z).

Local Notation left_over := (remaining max_wait start_time).
Local Notation loop fuel := (wait_loop fuel rt rm self file_name max_wait start_time).

Ltac clock :=
  unfold remaining, answered in *;
  cbn [now sent console advance record_request add_line] in *; lia.

Lemma wait_loop_expired fuel s :
  left_over s <= 0 ->
  loop fuel s = (Ok ExitTimedOut, add_line timeout_warning s).
Proof.
  unfold remaining. intros H.
  assert (Hc : (now s - start_time <? max_wait * 1000) = false)
    by (apply Z.ltb_ge; lia).
  destruct fuel; simpl; rewrite Hc; reflexivity.
Qed.

Lemma wait_loop_round fuel s :
  0 < left_over s ->
  loop (S fuel) s =
    match poll_once rt rm self file_name s with
    | (Ok Continue, s') => loop fuel s'
    | (Ok (Return e), s') => (Ok e, s')
    | (Ok Break, s') => (Ok ExitAborted, add_line timeout_warning s')
    | (Raise e, s') => (Raise e, s')
    | (OutOfFuel, s') => (OutOfFuel, s')
    end.
Proof.
  unfold remaining. intros H.
  assert (Hc : (now s - start_time <? max_wait * 1000) = true)
    by (apply Z.ltb_lt; lia).
  cbn [wait_loop]. rewrite Hc. unfold bind.
  destruct (poll_once rt rm self file_name s) as [[step| |] s']; try reflexivity.
  destruct step; reflexivity.
Qed.

(** [FAILED] ends the loop in the round that sees it: no sleep, no
    further request, no warning. *)
Lemma wait_loop_stops_on_failed fuel s :
  0 < left_over s ->
  reported_state (rm (List.length (sent s)) status) = Some (VStr "FAILED") ->
  loop (S fuel) s =
    (Ok ExitFailed, add_line "❌ Video processing failed" (answered rm status s)).
Proof.
  intros Hleft Hfailed. rewrite wait_loop_round by exact Hleft.
  now rewrite poll_once_failed.
Qed.

(** [ACTIVE] ends it the same way. *)
Lemma wait_loop_stops_on_active fuel s :
  0 < left_over s ->
  reported_state (rm (List.length (sent s)) status) = Some (VStr "ACTIVE") ->
  loop (S fuel) s =
    (Ok ExitActive, add_line "✅ Video processing complete!" (answered rm status s)).
Proof.
  intros Hleft Hactive. rewrite wait_loop_round by exact Hleft.
  now rewrite poll_once_active.
Qed.

(** The loop always comes back, whatever the remote answers: each round
    that goes on costs two seconds of the budget, so the number of
    status requests is at most the budget divided by two seconds,
    rounded up. *)
Lemma wait_loop_bounded fuel :
  forall s,
    left_over s <= 2000 * Z.of_nat fuel ->
    exists e s' n,
      loop fuel s = (Ok e, s') /\
      same_store s s' /\
      sent s' = (sent s ++ repeat status n)%list /\
      2000 * Z.of_nat n < Z.max (left_over s) 0 + 2000.
Proof.
  induction fuel as [|fuel IH]; intros s Hfuel.
  - exists ExitTimedOut, (add_line timeout_warning s), O.
    rewrite wait_loop_expired by lia.
    repeat split; simpl; [now rewrite app_nil_r | lia].
  - destruct (Z_le_gt_dec (left_over s) 0) as [Hdone|Hleft].
    + exists ExitTimedOut, (add_line timeout_warning s), O.
      rewrite wait_loop_expired by lia.
      repeat split; simpl; [now rewrite app_nil_r | lia].
    + rewrite wait_loop_round by lia.
      destruct (poll_once_round rt rm self file_name s)
        as (step & s1 & Hpoll & Hsent & Hstore & Hnow).
      rewrite Hpoll.
      destruct step as [|e|].
      * specialize (Hnow eq_refl).
        destruct (IH s1) as (e & s' & n & Hrun & Hstore' & Hsent' & Hn).
        { clock. }
        exists e, s', (S n). repeat split.
        -- exact Hrun.
        -- destruct Hstore, Hstore'; congruence.
        -- destruct Hstore, Hstore'; congruence.
        -- rewrite Hsent', Hsent, <- app_assoc. reflexivity.
        -- clock.
      * exists e, s1, 1%nat. repeat split; try apply Hstore; [exact Hsent | lia].
      * exists ExitAborted, (add_line timeout_warning s1), 1%nat.
        repeat split; try apply Hstore; [exact Hsent | lia].
Qed.

(** The budget only shrinks. *)
Lemma after_rounds_budget k s :
  left_over (after_rounds rm status k s) <= left_over s - 2000 * Z.of_nat k.
Proof.
  destruct (after_rounds_trace k s) as (_ & _ & _ & Hnow & _).
  unfold remaining. lia.
Qed.

Lemma after_rounds_step k s :
  after_rounds rm status (S k) s
  = after_rounds rm status k (advance 2000 (answered rm status s)).
Proof. reflexivity. Qed.

(** While the replies keep the loop waiting and the budget lasts, the
    loop goes round: [k] rounds take it to [after_rounds k]. *)
Lemma wait_loop_rounds k :
  forall fuel s,
    (forall j, (j < k)%nat ->
       keeps_waiting (rm (List.length (sent s) + j)%nat status) = true) ->
    0 < left_over (after_rounds rm status k s) ->
    loop (k + fuel) s = loop fuel (after_rounds rm status k s).
Proof.
  induction k as [|k IH]; intros fuel s Hon Hleft; [reflexivity|].
  assert (Hnow : 0 < left_over s).
  { pose proof (after_rounds_budget (S k) s). lia. }
  cbn [Nat.add]. rewrite wait_loop_round by exact Hnow.
  rewrite poll_once_goes_on
    by (specialize (Hon O); rewrite Nat.add_0_r in Hon; apply Hon; lia).
  rewrite after_rounds_step in *.
  apply IH; [|exact Hleft].
  intros j Hj. unfold answered.
  cbn [sent advance record_request]. rewrite length_app. cbn [List.length].
  replace (List.length (sent s) + 1 + j)%nat
    with (List.length (sent s) + S j)%nat by lia.
  apply Hon. lia.
Qed.

(** A remote whose replies all keep the loop waiting: the loop ends by
    the clock, in the state [n] rounds have made, where [n] is the first
    number of rounds that uses the budget up. *)
Lemma wait_loop_runs_out fuel :
  (forall i, keeps_waiting (rm i status) = true) ->
  forall s,
    left_over s <= 2000 * Z.of_nat fuel ->
    exists n,
      loop fuel s
        = (Ok ExitTimedOut, add_line timeout_warning (after_rounds rm status n s)) /\
      (forall j, (j < n)%nat -> 0 < left_over (after_rounds rm status j s)) /\
      left_over (after_rounds rm status n s) <= 0 /\
      2000 * Z.of_nat n < Z.max (left_over s) 0 + 2000 /\
      (0 < left_over s -> (1 <= n)%nat) /\
      ((forall i, latency_of (rm i status) = 0%N) ->
       Z.max (left_over s) 0 <= 2000 * Z.of_nat n).
Proof.
  intros Hon.
  induction fuel as [|fuel IH]; intros s Hfuel;
    destruct (Z_le_gt_dec (left_over s) 0) as [Hdone|Hleft]; try lia.
  1, 2: exists O; rewrite wait_loop_expired by lia; cbn [after_rounds];
        repeat split; try lia; intros j Hj; lia.
  rewrite wait_loop_round by lia.
  rewrite poll_once_goes_on by apply Hon.
  destruct (IH (advance 2000 (answered rm status s)))
    as (n & Hrun & Hbefore & Hend & Hn & _ & Hzero).
  { clock. }
  exists (S n). rewrite after_rounds_step. repeat split.
  - exact Hrun.
  - intros [|j] Hj; [cbn [after_rounds]; lia|].
    rewrite after_rounds_step. apply Hbefore. lia.
  - exact Hend.
  - clock.
  - lia.
  - intros Hlat. specialize (Hzero Hlat).
    specialize (Hlat (List.length (sent s))).
    unfold remaining, answered in *. rewrite Hlat in *. clock.
Qed.

End Polling.

(** [wait_for_file_processing] as a whole: it returns on every remote,
    without touching the history or the table of uploads, after at most
    150 status requests when [max_wait] is 300. *)
Lemma wait_for_file_processing_total rt rm self file_name max_wait s :
  exists e s' n,
    wait_for_file_processing rt rm self file_name max_wait s = (Ok e, s') /\
    same_store s s' /\
    sent s' = (sent s ++ repeat (status_request rt self file_name) n)%list /\
    2000 * Z.of_nat n < Z.max (max_wait * 1000) 0 + 2000.
Proof.
  unfold wait_for_file_processing.
  destruct (Py.truthy file_name); cbn [negb].
  - unfold bind, get_state.
    destruct (wait_loop_bounded rt rm self file_name max_wait (now s)
                (Z.to_nat max_wait) s) as (e & s' & n & Hrun & Hstore & Hsent & Hn).
    { unfold remaining. lia. }
    exists e, s', n. unfold remaining in Hn.
    repeat split; try apply Hstore; try assumption.
    replace (max_wait * 1000 - (now s - now s)) with (max_wait * 1000) in Hn by lia.
    exact Hn.
  - exists ExitNoName, s, O. unfold ret.
    repeat split; simpl; [now rewrite app_nil_r | lia].
Qed.

(** ** Uploading *)

Section Upload.

Variables (rt : Runtime) (rm : Remote) (self : GeminiChat).
Variables (file_path mime_type : string) (file_size : Z) (s : State).

Hypothesis on_disk : video_on_disk rt self file_path mime_type file_size.

Local Notation upload := (upload_file_to_gemini rt rm self file_path).
Local Notation session := (session_request rt self file_path mime_type file_size).

Lemma upload_over_cap :
  max_size < file_size ->
  upload s =
    (Ok (Some (UploadError
                 ("File too large: "
                  ++ Py.format_1f file_size (1024 * 1024 * 1024)
                  ++ "GB (max 2GB)"))), s).
Proof.
  destruct on_disk as (accessible & present & is_video & measured).
  intros Hbig. unfold upload_file_to_gemini.
  rewrite accessible, present, bind_lift_val, is_video. cbn [negb].
  unfold try_except, bind, lift, ret. rewrite measured.
  assert (Hgt : (file_size >? max_size) = true) by (apply Z.gtb_lt; lia).
  rewrite Hgt. reflexivity.
Qed.

Hypothesis fits : file_size <= max_size.

Variables (latency0 : N) (response0 : Response).
Hypothesis started :
  rm (List.length (sent s)) session = Responded latency0 response0.

Local Notation in_session :=
  (session_answered rt self file_path mime_type file_size latency0 s).

(** Up to the answer to the session request the run is fixed; what is
    left is the rest of the [try] block. *)
Lemma upload_reaches_session :
  upload s =
    try_except
      (if negb (status_code response0 =? 200) then
         print ("Failed to start upload session: "
                ++ Py.str_int (status_code response0)) ;;;
         print ("Response: " ++ text response0) ;;;
         ret (Some (UploadError ("Upload session failed: "
                                 ++ Py.str_int (status_code response0))))
       else
         match header response0 "X-Goog-Upload-URL" with
         | None | Some EmptyString =>
             ret (Some (UploadError "No upload URL received"))
         | Some upload_session_url =>
             file_content <- lift (read_bytes rt file_path) ;;
             response <- http rm (transfer_request upload_session_url
                                    file_size file_content) ;;
             if status_code response =? 200 then
               result <- lift (json response) ;;
               file_uri <- file_field result "uri" ;;
               if Py.truthy file_uri then
                 name <- file_field result "name" ;;
                 modify (fun s =>
                   set_uploads
                     (Py.assign (uploaded_files s) file_path
                        {| info_uri := file_uri; info_name := name;
                           info_mime_type := mime_type;
                           info_size := file_size |}) s) ;;;
                 print "⏳ Processing video..." ;;;
                 name <- file_field result "name" ;;
                 _ <- wait_for_file_processing rt rm self name 300 ;;
                 ret (Some (Uploaded file_uri mime_type))
               else upload_failed response
             else upload_failed response
         end)
      (fun e =>
         print ("Exception during upload: " ++ str_exn rt e) ;;;
         ret (Some (UploadError ("Error uploading file: " ++ str_exn rt e))))
      in_session.
Proof.
  destruct on_disk as (accessible & present & is_video & measured).
  unfold upload_file_to_gemini.
  rewrite accessible, present, bind_lift_val, is_video. cbn [negb].
  assert (Hle : (file_size >? max_size) = false)
    by (rewrite Z.gtb_ltb; apply Z.ltb_ge; lia).
  unfold try_except, bind, lift, ret, print, modify, http.
  rewrite measured, Hle.
  cbn [sent add_line]. fold session. rewrite started.
  reflexivity.
Qed.

Lemma session_rejected :
  status_code response0 <> 200 ->
  upload s =
    (Ok (Some (UploadError ("Upload session failed: "
                            ++ Py.str_int (status_code response0)))),
     add_line ("Response: " ++ text response0)
       (add_line ("Failed to start upload session: "
                  ++ Py.str_int (status_code response0))
          in_session)).
Proof.
  intros Hstatus. rewrite upload_reaches_session.
  apply Z.eqb_neq in Hstatus. rewrite Hstatus. reflexivity.
Qed.

Lemma session_without_url :
  status_code response0 = 200 ->
  header response0 "X-Goog-Upload-URL" = None \/
  header response0 "X-Goog-Upload-URL" = Some "" ->
  upload s = (Ok (Some (UploadError "No upload URL received")), in_session).
Proof.
  intros Hstatus Hurl. rewrite upload_reaches_session.
  apply Z.eqb_eq in Hstatus. rewrite Hstatus.
  destruct Hurl as [-> | ->]; reflexivity.
Qed.

End Upload.

Section Handshake.

Variables (rt : Runtime) (rm : Remote) (self : GeminiChat).
Variables (file_path mime_type : string) (file_size : Z) (s : State).
Variable h : Handshake.

Hypothesis on_disk : video_on_disk rt self file_path mime_type file_size.
Hypothesis fits : file_size <= max_size.
Hypothesis done : handshake_done rt rm self file_path mime_type file_size s h.

Local Notation upload := (upload_file_to_gemini rt rm self file_path).
Local Notation processing :=
  (processing_started rt self file_path mime_type file_size h s).

(** Whatever exit the wait takes, the caller goes on to return the URI
    and the mime type. *)
Lemma upload_reaches_processing e s' :
  wait_for_file_processing rt rm self (remote_name h) 300 processing = (Ok e, s') ->
  upload s = (Ok (Some (Uploaded (file_uri h) mime_type)), s').
Proof.
  destruct done as (started & session_ok & session_url & content_read
                    & transferred & transfer_ok & decoded & file_entry
                    & uri_entry & uri_given).
  intros Hwait.
  rewrite (upload_reaches_session rt rm self file_path mime_type file_size s
             on_disk fits _ _ started).
  apply Z.eqb_eq in session_ok, transfer_ok.
  rewrite session_ok, session_url. cbn [negb].
  unfold upload_session_url at 1. fold (upload_session_url h).
  unfold try_except, bind, lift, ret, print, modify, http, file_field.
  rewrite content_read.
  replace (List.length
             (sent (session_answered rt self file_path mime_type file_size
                      (session_latency h) s)))
    with (S (List.length (sent s)))
    by (unfold session_answered, announced;
        cbn [sent advance record_request add_line];
        rewrite length_app; cbn [List.length]; lia).
  fold (content_request h file_size).
  rewrite transferred, transfer_ok, decoded.
  unfold bind, lift, ret, raise. rewrite file_entry.
  cbn [Py.get]. rewrite uri_entry, uri_given.
  fold (remote_name h). fold (file_record h mime_type file_size).
  change (add_line "⏳ Processing video..." _) with processing.
  rewrite Hwait. reflexivity.
Qed.

Lemma processing_trace :
  sent processing =
    (sent s ++ [session_request rt self file_path mime_type file_size;
                content_request h file_size])%list.
Proof.
  unfold processing_started, session_answered, announced.
  cbn [sent add_line set_uploads advance record_request].
  rewrite <- app_assoc. reflexivity.
Qed.

(** The reference is handed out on every behaviour of the status
    endpoint, and the record stays in the table. *)
Lemma upload_returns_reference :
  exists s' n,
    upload s = (Ok (Some (Uploaded (file_uri h) mime_type)), s') /\
    conversation_history s' = conversation_history s /\
    uploaded_files s' =
      Py.assign (uploaded_files s) file_path (file_record h mime_type file_size) /\
    sent s' = (sent s ++ [session_request rt self file_path mime_type file_size;
                          content_request h file_size]
               ++ repeat (status_request rt self (remote_name h)) n)%list /\
    (n <= 150)%nat.
Proof.
  destruct (wait_for_file_processing_total rt rm self (remote_name h) 300
              processing) as (e & s' & n & Hwait & [Hh Hu] & Hsent & Hn).
  exists s', n. split; [exact (upload_reaches_processing e s' Hwait)|].
  repeat split.
  - rewrite Hh. reflexivity.
  - rewrite Hu. reflexivity.
  - rewrite Hsent, processing_trace, <- app_assoc. reflexivity.
  - lia.
Qed.

End Handshake.

(** ** Access check *)

Lemma is_file_accessible_iff rt self file_path :
  is_file_accessible rt self file_path = true <->
  exists resolved root rest,
    resolve rt file_path = Some resolved /\
    In root (allowed_dirs self) /\
    resolved = root ++ rest.
Proof.
  unfold is_file_accessible. destruct (resolve rt file_path) as [resolved|].
  - rewrite existsb_exists. split.
    + intros (root & Hin & Hpre). apply startswith_iff in Hpre as [rest ->].
      exists (root ++ rest), root, rest. auto.
    + intros (r & root & rest & Hr & Hin & ->). inversion Hr; subst.
      exists root. split; [exact Hin|]. apply startswith_iff. eauto.
  - split; [discriminate|]. intros (r & root & rest & Hr & _). discriminate.
Qed.

(** ** Classification *)

(** [read_file_content] is the dispatch on [classify]. *)
Lemma read_file_content_by_category rt rm self file_path :
  read_file_content rt rm self file_path =
    if negb (is_file_accessible rt self file_path) then ret None
    else
      try_except
        (present <- lift (exists_ rt file_path) ;;
         if negb present then ret None
         else
           match classify (lower rt (suffix rt file_path))
                          (guess_type rt file_path) with
           | Video =>
               upload_result <- upload_file_to_gemini rt rm self file_path ;;
               ret (Some (video_part file_path upload_result))
           | TextLike =>
               content <- lift (read_text rt file_path) ;;
               ret (Some (file_text file_path content))
           | Image =>
               raw <- lift (read_bytes rt file_path) ;;
               ret (Some (VDict
                      [("inline_data",
                        VDict [("mime_type",
                                VStr (mime_or (guess_type rt file_path)
                                        ("image/" ++ Py.drop 1 (suffix rt file_path))));
                               ("data", VStr (b64encode rt raw))])]))
           | Opaque =>
               ret (Some (text_part
                      ("File exists: " ++ file_path ++ " (binary file, "
                       ++ mime_or (guess_type rt file_path) "unknown type" ++ ")")))
           end)
        (fun e =>
           ret (Some (text_part ("Error reading file " ++ file_path ++ ": "
                                 ++ str_exn rt e)))).
Proof.
  unfold read_file_content, classify.
  destruct (is_file_accessible rt self file_path); cbn [negb]; [|reflexivity].
  destruct (in_set (lower rt (suffix rt file_path)) video_extensions); [reflexivity|].
  destruct (is_text_mime (guess_type rt file_path)); [reflexivity|].
  destruct (in_set (lower rt (suffix rt file_path)) code_extensions); [reflexivity|].
  destruct (in_set (lower rt (suffix rt file_path)) image_extensions); reflexivity.
Qed.

Lemma classify_video (ext : string) (mime_type : option string) :
  in_set ext video_extensions = true -> classify ext mime_type = Video.
Proof. intros H. unfold classify. now rewrite H. Qed.

(** ** Chat *)

Lemma first_candidate_reply latency r result v :
  status_code r = 200 ->
  json r = Val result ->
  first_candidate_text result = Val v ->
  candidate_text (Responded latency r) = Some v.
Proof.
  intros Hstatus Hjson Hpath. unfold candidate_text.
  apply Z.eqb_eq in Hstatus. rewrite Hstatus, Hjson.
  destruct result; try discriminate Hpath.
  unfold first_candidate_text in *. cbn [Py.item Py.has] in *.
  destruct (Py.lookup d "candidates") as [candidates|]; [|discriminate].
  rewrite Hpath.
  destruct candidates as [| | | | c | l | ]; try discriminate Hpath.
  - destruct c; [discriminate|]. reflexivity.
  - destruct l; [discriminate|]. cbn [Py.len List.length].
    destruct (Z.of_nat (S (List.length l)) >? 0) eqn:E; [reflexivity|].
    rewrite Z.gtb_ltb in E. apply Z.ltb_ge in E. lia.
Qed.


Section Chat.

Variables (rt : Runtime) (rm : Remote) (self : GeminiChat).
Variables (message : string) (s : State).

Local Notation reply := (rm (List.length (sent s)) (prompt_request self message s)).

Ltac by_candidate_text H :=
  unfold candidate_text, call_gemini, chat_answered, answered; run_monad;
  cbn [sent conversation_history set_history];
  fold (prompt_turn message); fold (prompt_request self message s);
  intros H;
  repeat (break_match; cbn [latency_of] in *; try discriminate);
  repeat match goal with
         | E : (_, _) = (_, _) |- _ => inversion E; subst; clear E
         | E : Some _ = Some _ |- _ => inversion E; subst; clear E
         end; try discriminate.

Lemma call_gemini_success v :
  candidate_text reply = Some v ->
  call_gemini rt rm self message s =
    (Ok v, set_history (conversation_history s
                        ++ [prompt_turn message; model_turn [text_value v]])
             (chat_answered rm self message s)).
Proof.
  by_candidate_text H.
  all: unfold set_history; cbn; rewrite <- ?app_assoc; reflexivity.
Qed.

Lemma call_gemini_failure :
  candidate_text reply = None ->
  exists error,
    call_gemini rt rm self message s =
      (Ok (VStr error), chat_answered rm self message s).
Proof.
  by_candidate_text H.
  all: eexists; reflexivity.
Qed.

(** Whatever comes back, exactly one request goes out; it carries the
    history with the new user turn at its end, and the history after the
    call starts with both. *)
Lemma call_gemini_shape :
  exists v s' tail,
    call_gemini rt rm self message s = (Ok v, s') /\
    conversation_history s' =
      (conversation_history s ++ prompt_turn message :: tail)%list /\
    uploaded_files s' = uploaded_files s /\
    sent s' = (sent s ++ [prompt_request self message s])%list.
Proof.
  destruct (candidate_text reply) as [v|] eqn:E.
  - exists v, (set_history (conversation_history s
                            ++ [prompt_turn message; model_turn [text_value v]])
                 (chat_answered rm self message s)), [model_turn [text_value v]].
    split; [now apply call_gemini_success|]. repeat split.
  - destruct (call_gemini_failure E) as [error Herr].
    exists (VStr error), (chat_answered rm self message s), [].
    split; [exact Herr|]. repeat split.
Qed.

End Chat.

(** ** Routing *)

Ltac literal_prefix H :=
  apply startswith_iff in H; destruct H as [? ->]; repeat split; reflexivity.

Lemma route_clear user_input :
  Py.startswith user_input "/clear" = true ->
  Py.startswith user_input "/read " = false /\
  Py.startswith user_input "/ls" = false /\
  Py.startswith user_input "/list" = false /\
  Py.startswith user_input "/help" = false.
Proof. intros H. literal_prefix H. Qed.

Lemma route_cleanup user_input :
  Py.startswith user_input "/cleanup" = true ->
  Py.startswith user_input "/read " = false /\
  Py.startswith user_input "/ls" = false /\
  Py.startswith user_input "/list" = false /\
  Py.startswith user_input "/help" = false /\
  Py.startswith user_input "/clear" = false.
Proof. intros H. literal_prefix H. Qed.

Lemma route_uploads user_input :
  Py.startswith user_input "/uploads" = true ->
  Py.startswith user_input "/read " = false /\
  Py.startswith user_input "/ls" = false /\
  Py.startswith user_input "/list" = false /\
  Py.startswith user_input "/help" = false /\
  Py.startswith user_input "/clear" = false /\
  Py.startswith user_input "/cleanup" = false.
Proof. intros H. literal_prefix H. Qed.

(** ** What goes out during a session *)

Lemma issues_refl P s : issues P s s.
Proof. exists []. split; [now rewrite app_nil_r | constructor]. Qed.

Lemma issues_trans P s1 s2 s3 :
  issues P s1 s2 -> issues P s2 s3 -> issues P s1 s3.
Proof.
  intros (e1 & H1 & F1) (e2 & H2 & F2). exists (e1 ++ e2)%list. split.
  - rewrite H2, H1, app_assoc. reflexivity.
  - apply Forall_app. split; assumption.
Qed.



Lemma Forall_repeat {A : Type} (P : A -> Prop) (x : A) (n : nat) :
  P x -> Forall P (repeat x n).
Proof. intros H. induction n; simpl; constructor; assumption. Qed.

(** Settles [issues quiet s st] for a state [st] built from [s] by the
    steps of the monad, given what is known of the traces in between. *)
Ltac quiet_trace :=
  first
    [ apply issues_refl
    | exists [];
      cbn [sent add_line advance record_request set_uploads set_history];
      split; [now rewrite app_nil_r | constructor]
    | unfold issues;
      cbn [sent add_line advance record_request set_uploads set_history] in *;
      repeat match goal with
             | H : sent ?x = _ |- context [sent ?x] => rewrite H
             end;
      rewrite <- ?app_assoc; cbn [app];
      eexists; split; [reflexivity|];
      repeat first
        [ apply Forall_nil
        | apply Forall_repeat; reflexivity
        | apply Forall_cons; [reflexivity|] ] ].

(** [upload_file_to_gemini] returns on every runtime and every remote:
    its own [except] turns any exception into an error result, and the
    wait inside it is bounded.  It leaves the history alone, and none of
    its requests is a chat request. *)
Lemma upload_file_to_gemini_quiet rt rm self file_path s :
  exists r s',
    upload_file_to_gemini rt rm self file_path s = (Ok r, s') /\
    conversation_history s' = conversation_history s /\
    issues quiet s s'.
Proof.
  unfold upload_file_to_gemini, upload_failed, file_field. run_monad.
  repeat first
    [ match goal with
      | |- context [wait_for_file_processing ?a ?b ?c ?d ?e ?st] =>
          let Hw := fresh "Hw" in
          destruct (wait_for_file_processing_total a b c d e st)
            as (? & ? & ? & Hw & [? ?] & ? & ?);
          rewrite Hw
      end
    | break_match ];
    do 2 eexists; (split; [reflexivity|]);
    (split;
     [ cbn [conversation_history add_line advance record_request set_uploads] in *;
       congruence
     | quiet_trace ]).
Qed.

Lemma read_file_content_quiet rt rm self file_path s :
  exists r s',
    read_file_content rt rm self file_path s = (Ok r, s') /\
    conversation_history s' = conversation_history s /\
    issues quiet s s'.
Proof.
  unfold read_file_content. run_monad.
  repeat first
    [ match goal with
      | |- context [upload_file_to_gemini ?a ?b ?c ?d ?st] =>
          let Hu := fresh "Hu" in
          destruct (upload_file_to_gemini_quiet a b c d st) as (? & ? & Hu & ? & ?);
          rewrite Hu
      end
    | break_match ];
    do 2 eexists; (split; [reflexivity|]);
    (split; [congruence || reflexivity | assumption || apply issues_refl]).
Qed.

Lemma delete_uploaded_file_quiet rt rm self file_name s :
  exists deleted s',
    delete_uploaded_file rt rm self file_name s = (Ok deleted, s') /\
    same_store s s' /\
    issues quiet s s'.
Proof.
  unfold delete_uploaded_file. run_monad.
  break_match; do 2 eexists; (split; [reflexivity|]);
    (split; [split; reflexivity | quiet_trace]).
Qed.

Lemma remove_head {A : Type} (k : string) (v : A) (rest : list (string * A)) :
  Py.remove ((k, v) :: rest) k = rest.
Proof. simpl. now rewrite String.eqb_refl. Qed.

(** The loop of [/cleanup] walks the snapshot and deletes the entries
    from the table one by one, whether or not the remote deletion
    succeeds. *)
Lemma cleanup_loop_empties rt rm self items :
  forall cleaned s,
    uploaded_files s = items ->
    exists n s',
      cleanup_loop rt rm self items cleaned s = (Ok n, s') /\
      uploaded_files s' = [] /\
      conversation_history s' = conversation_history s.
Proof.
  induction items as [|[file_path file_info] rest IH]; intros cleaned s Hitems.
  - exists cleaned, s. repeat split; assumption.
  - cbn [cleanup_loop]. unfold bind at 1.
    assert (Hfirst : exists c s1,
               (if Py.truthy (info_name file_info)
                then deleted <- delete_uploaded_file rt rm self (info_name file_info) ;;
                     ret (if deleted then cleaned + 1 else cleaned)
                else ret cleaned) s = (Ok c, s1) /\ same_store s s1).
    { destruct (Py.truthy (info_name file_info)).
      - destruct (delete_uploaded_file_quiet rt rm self (info_name file_info) s)
          as (d & s1 & Hd & Hs & _).
        unfold bind. rewrite Hd. do 2 eexists. split; [reflexivity | exact Hs].
      - do 2 eexists. split; [reflexivity | apply same_store_refl]. }
    destruct Hfirst as (c & s1 & -> & [Hh Hu]).
    unfold bind, modify.
    destruct (IH c (set_uploads (Py.remove (uploaded_files s1) file_path) s1))
      as (n & s' & Hrun & Hempty & Hhist).
    { cbn [uploaded_files set_uploads]. rewrite Hu, Hitems. apply remove_head. }
    exists n, s'. split; [exact Hrun|]. split; [exact Hempty|].
    rewrite Hhist. cbn [conversation_history set_uploads]. exact Hh.
Qed.

Lemma cleanup_loop_quiet rt rm self items :
  forall cleaned s,
    exists n s',
      cleanup_loop rt rm self items cleaned s = (Ok n, s') /\
      conversation_history s' = conversation_history s /\
      issues quiet s s'.
Proof.
  induction items as [|[file_path file_info] rest IH]; intros cleaned s.
  - exists cleaned, s. repeat split. apply issues_refl.
  - cbn [cleanup_loop]. unfold bind at 1.
    assert (Hfirst : exists c s1,
               (if Py.truthy (info_name file_info)
                then deleted <- delete_uploaded_file rt rm self (info_name file_info) ;;
                     ret (if deleted then cleaned + 1 else cleaned)
                else ret cleaned) s = (Ok c, s1)
               /\ same_store s s1 /\ issues quiet s s1).
    { destruct (Py.truthy (info_name file_info)).
      - destruct (delete_uploaded_file_quiet rt rm self (info_name file_info) s)
          as (d & s1 & Hd & Hs & Hq).
        unfold bind. rewrite Hd. do 2 eexists. split; [reflexivity | split; assumption].
      - do 2 eexists. split; [reflexivity|].
        split; [apply same_store_refl | apply issues_refl]. }
    destruct Hfirst as (c & s1 & -> & [Hh Hu] & Hq).
    unfold bind, modify.
    destruct (IH c (set_uploads (Py.remove (uploaded_files s1) file_path) s1))
      as (n & s' & Hrun & Hhist & Hq').
    exists n, s'. split; [exact Hrun|]. split.
    + rewrite Hhist. cbn [conversation_history set_uploads]. exact Hh.
    + eapply issues_trans; [exact Hq|]. exact Hq'.
Qed.

Lemma teardown_quiet rt rm self items :
  forall s,
    exists s',
      teardown rt rm self items s = (Ok tt, s') /\
      conversation_history s' = conversation_history s /\
      issues quiet s s'.
Proof.
  induction items as [|[file_path file_info] rest IH]; intros s.
  - exists s. repeat split. apply issues_refl.
  - cbn [teardown]. unfold bind at 1.
    assert (Hfirst : exists s1,
               (if Py.truthy (info_name file_info)
                then _ <- delete_uploaded_file rt rm self (info_name file_info) ;;
                     ret tt
                else ret tt) s = (Ok tt, s1)
               /\ same_store s s1 /\ issues quiet s s1).
    { destruct (Py.truthy (info_name file_info)).
      - destruct (delete_uploaded_file_quiet rt rm self (info_name file_info) s)
          as (d & s1 & Hd & Hs & Hq).
        unfold bind. rewrite Hd. eexists. split; [reflexivity | split; assumption].
      - eexists. split; [reflexivity|].
        split; [apply same_store_refl | apply issues_refl]. }
    destruct Hfirst as (s1 & -> & [Hh Hu] & Hq).
    destruct (IH s1) as (s' & Hrun & Hhist & Hq').
    exists s'. split; [exact Hrun|]. split.
    + rewrite Hhist. exact Hh.
    + eapply issues_trans; [exact Hq|]. exact Hq'.
Qed.






(** ** The loop of [run], one input at a time *)

Lemma run_loop_line rt rm self tty raw rest s :
  run_loop rt rm self tty (Line raw :: rest) s =
    let s0 := add_line input_prompt s in
    if (strip rt raw =? "")%string then run_loop rt rm self tty rest s0
    else if in_set (lower rt (strip rt raw)) exit_words
    then (Ok tt, add_line "👋 Goodbye!" s0)
    else
      match process_message rt rm self (strip rt raw)
              (add_line (nl ++ "🤖 Gemini: ") s0) with
      | (Ok response, s1) =>
          match tty (str_value rt response) with
          | Val _ =>
              run_loop rt rm self tty rest (add_line (str_value rt response) s1)
          | Err e => (Raise e, s1)
          end
      | (Raise e, s1) => (Raise e, s1)
      | (OutOfFuel, s1) => (OutOfFuel, s1)
      end.
Proof.
  cbn [run_loop]. unfold bind at 1. unfold print at 1. unfold modify at 1.
  cbv zeta.
  destruct (strip rt raw =? "")%string; [reflexivity|].
  destruct (in_set (lower rt (strip rt raw)) exit_words); [reflexivity|].
  unfold bind at 1. unfold print at 1. unfold modify at 1.
  unfold bind at 1.
  destruct (process_message rt rm self (strip rt raw)
              (add_line (nl ++ "🤖 Gemini: ") (add_line input_prompt s)))
    as [[response| e |] s1]; [|reflexivity|reflexivity].
  unfold bind at 1. unfold say. unfold bind at 1. unfold lift.
  destruct (tty (str_value rt response)) as [u|e]; reflexivity.
Qed.

Lemma run_loop_interrupt rt rm self tty rest s :
  run_loop rt rm self tty (Interrupt :: rest) s =
    match teardown rt rm self (uploaded_files s)
            (add_line (nl ++ "🧹 Cleaning up uploaded files...")
               (add_line input_prompt s)) with
    | (Ok _, s1) => (Ok tt, add_line "👋 Goodbye!" s1)
    | (Raise e, s1) => (Raise e, s1)
    | (OutOfFuel, s1) => (OutOfFuel, s1)
    end.
Proof.
  cbn [run_loop]. unfold bind, print, modify, get_state.
  cbn [uploaded_files add_line].
  destruct (teardown rt rm self (uploaded_files s) _) as [[u| e |] s1];
    reflexivity.
Qed.



(** * The specification, claim by claim *)

(** C4.  A video file that passes the access and existence checks and
    whose measured size is above the cap of 2 GiB makes the upload return
    at once with the error "File too large: <size in GB, one decimal>GB
    (max 2GB)".  The state comes back as it was: no request has been
    issued, nothing was printed, and the table of uploads holds no new
    record. *)
Theorem oversized_video_is_refused_before_any_request
  rt rm self file_path mime_type file_size s :
  video_on_disk rt self file_path mime_type file_size ->
  max_size < file_size ->
  max_size = 2147483648 /\
  upload_file_to_gemini rt rm self file_path s =
    (Ok (Some (UploadError
                 ("File too large: "
                  ++ Py.format_1f file_size (1024 * 1024 * 1024)
                  ++ "GB (max 2GB)"))), s).
Proof.
  intros Hdisk Hbig. split; [reflexivity|].
  now apply (upload_over_cap rt rm self file_path mime_type file_size s Hdisk).
Qed.

Lemma oversized_video_witness :
  video_on_disk Sample.machine Sample.chat "huge.mp4" "video/mp4" 3221225472 /\
  max_size < 3221225472 /\
  upload_file_to_gemini Sample.machine (Sample.scripted [] Sample.refused)
    Sample.chat "huge.mp4" Sample.fresh =
    (Ok (Some (UploadError "File too large: 3.0GB (max 2GB)")), Sample.fresh).
Proof.
  assert (Hdisk : video_on_disk Sample.machine Sample.chat "huge.mp4"
                    "video/mp4" 3221225472)
    by (repeat split; reflexivity).
  assert (Hbig : max_size < 3221225472) by reflexivity.
  split; [exact Hdisk|]. split; [exact Hbig|].
  exact (proj2 (oversized_video_is_refused_before_any_request
                  Sample.machine (Sample.scripted [] Sample.refused) Sample.chat
                  "huge.mp4" "video/mp4" 3221225472 Sample.fresh Hdisk Hbig)).
Defined.

(** C3, as the code has it.  When the session request is answered with a
    status other than 200, or with a 200 that carries no upload location
    (the header is missing or empty), the upload ends there with an error
    result, after that one request, and the table of uploads and the
    history are as before.  For a status other than 200 the error message
    is "Upload session failed: <status>": it names the status, and the
    body of the response is only printed.  For a 200 without a location
    the message is "No upload URL received", and nothing more is
    printed. *)
Theorem session_start_failure_ends_the_upload
  rt rm self file_path mime_type file_size s latency r :
  video_on_disk rt self file_path mime_type file_size ->
  file_size <= max_size ->
  rm (List.length (sent s)) (session_request rt self file_path mime_type file_size)
    = Responded latency r ->
  status_code r <> 200 \/
  header r "X-Goog-Upload-URL" = None \/
  header r "X-Goog-Upload-URL" = Some "" ->
  exists error s',
    upload_file_to_gemini rt rm self file_path s
      = (Ok (Some (UploadError error)), s') /\
    uploaded_files s' = uploaded_files s /\
    conversation_history s' = conversation_history s /\
    sent s' = (sent s ++ [session_request rt self file_path mime_type file_size])%list /\
    (status_code r <> 200 ->
     error = "Upload session failed: " ++ Py.str_int (status_code r) /\
     console s' =
       (console (announced file_size s)
        ++ [("Failed to start upload session: "
              ++ Py.str_int (status_code r))%string;
            ("Response: " ++ text r)%string])%list) /\
    (status_code r = 200 ->
     error = "No upload URL received" /\
     console s' = console (announced file_size s)).
Proof.
  intros Hdisk Hfits Hreply Hfail.
  destruct (Z.eq_dec (status_code r) 200) as [Hok|Hbad].
  - destruct Hfail as [Hbad|Hurl]; [contradiction|].
    rewrite (session_without_url rt rm self file_path mime_type file_size s
               Hdisk Hfits latency r Hreply Hok Hurl).
    do 2 eexists. split; [reflexivity|].
    repeat split; try reflexivity; contradiction.
  - rewrite (session_rejected rt rm self file_path mime_type file_size s
               Hdisk Hfits latency r Hreply Hbad).
    do 2 eexists. split; [reflexivity|].
    repeat split; try reflexivity; try contradiction.
    unfold session_answered, announced.
    cbn [console add_line advance record_request].
    rewrite <- app_assoc. reflexivity.
Qed.

Lemma session_start_failure_witness :
  exists error s',
    upload_file_to_gemini Sample.machine Sample.session_refused Sample.chat
      "clip.mp4" Sample.fresh = (Ok (Some (UploadError error)), s') /\
    uploaded_files s' = [] /\
    error = "Upload session failed: 500".
Proof.
  assert (Hdisk : video_on_disk Sample.machine Sample.chat "clip.mp4" "video/mp4" 28)
    by (repeat split; reflexivity).
  assert (Hfits : 28 <= max_size) by (unfold max_size; lia).
  assert (Hbad : 500 <> 200) by discriminate.
  destruct (session_start_failure_ends_the_upload
              Sample.machine Sample.session_refused Sample.chat
              "clip.mp4" "video/mp4" 28 Sample.fresh 80
              (Sample.response 500 [] Sample.quota_body Sample.not_json)
              Hdisk Hfits eq_refl (or_introl Hbad))
    as (error & s' & Hrun & Hup & _ & _ & Hmsg & _).
  exists error, s'. split; [exact Hrun|]. split; [exact Hup|].
  exact (proj1 (Hmsg Hbad)).
Defined.

(** C3 as stated fails: on a 500 whose body is "quota exceeded for
    project" the error message is "Upload session failed: 500", which
    does not hold the body; on a 200 without a location it is "No upload
    URL received", which holds neither the status nor the body. *)
Lemma session_start_message_omits_body :
  fst (upload_file_to_gemini Sample.machine Sample.session_refused Sample.chat
         "clip.mp4" Sample.fresh)
    = Ok (Some (UploadError "Upload session failed: 500")) /\
  Py.contains "Upload session failed: 500" Sample.quota_body = false /\
  fst (upload_file_to_gemini Sample.machine Sample.session_without_location
         Sample.chat "clip.mp4" Sample.fresh)
    = Ok (Some (UploadError "No upload URL received")) /\
  Py.contains "No upload URL received" "200" = false /\
  Py.contains "No upload URL received" "{}" = false.
Proof. repeat split; vm_compute; reflexivity. Qed.

Lemma lookup_assign {A : Type} (d : list (string * A)) (k : string) (v : A) :
  Py.lookup (Py.assign d k v) k = Some v.
Proof.
  induction d as [|[k' v'] d IH]; simpl.
  - now rewrite String.eqb_refl.
  - destruct (k' =? k)%string eqn:E; simpl.
    + now rewrite String.eqb_refl.
    + now rewrite E.
Qed.

(** For a video, [read_file_content] turns the result of the upload
    into a part. *)
Lemma read_video rt rm self file_path mime_type file_size s r s' :
  video_on_disk rt self file_path mime_type file_size ->
  upload_file_to_gemini rt rm self file_path s = (Ok r, s') ->
  read_file_content rt rm self file_path s
    = (Ok (Some (video_part file_path r)), s').
Proof.
  intros (accessible & present & is_video & _) Hupload.
  rewrite read_file_content_by_category, accessible, present, bind_lift_val.
  cbn [negb].
  rewrite (classify_video _ _ (video_format_extension _ _ is_video)).
  unfold try_except, bind. rewrite Hupload. reflexivity.
Qed.

(** C1, as the code has it.  A status poll that reports [FAILED] ends
    the polling loop in that very round, whichever round it is: the
    first, or one that comes after [k] polls whose replies kept the loop
    waiting, each followed by two seconds of sleep.  There is no sleep
    after it, no further status request, no retry.  The upload call then
    returns the URI and the mime type all the same, as it does after
    [ACTIVE], and the record stays in the table of uploads;
    [read_file_content] makes the file reference of it that goes into the
    conversation turn.  Only the line that says so is printed. *)
Theorem failed_processing_still_yields_the_reference
  rt rm self file_path mime_type file_size s h k :
  let status := status_request rt self (remote_name h) in
  let started := processing_started rt self file_path mime_type file_size h s in
  let last_round := after_rounds rm status k started in
  let failed :=
    add_line "❌ Video processing failed" (answered rm status last_round) in
  video_on_disk rt self file_path mime_type file_size ->
  file_size <= max_size ->
  handshake_done rt rm self file_path mime_type file_size s h ->
  Py.truthy (remote_name h) = true ->
  (forall j, (j < k)%nat ->
     keeps_waiting (rm (S (S (List.length (sent s))) + j)%nat status) = true) ->
  0 < remaining 300 (now started) last_round ->
  reported_state (rm (S (S (List.length (sent s))) + k)%nat status)
    = Some (VStr "FAILED") ->
  upload_file_to_gemini rt rm self file_path s
    = (Ok (Some (Uploaded (file_uri h) mime_type)), failed) /\
  read_file_content rt rm self file_path s
    = (Ok (Some (VDict [("file_data",
                         VDict [("file_uri", file_uri h);
                                ("mime_type", VStr mime_type)])])), failed) /\
  sent failed
    = (sent s ++ [session_request rt self file_path mime_type file_size;
                  content_request h file_size]
       ++ repeat status (S k))%list /\
  console failed = (console started ++ ["❌ Video processing failed"])%list /\
  Py.lookup (uploaded_files failed) file_path
    = Some (file_record h mime_type file_size) /\
  conversation_history failed = conversation_history s /\
  (forall fuel max_wait start_time st,
     0 < remaining max_wait start_time st ->
     reported_state (rm (List.length (sent st)) status) = Some (VStr "FAILED") ->
     wait_loop (S fuel) rt rm self (remote_name h) max_wait start_time st
       = (Ok ExitFailed,
          add_line "❌ Video processing failed" (answered rm status st))).
Proof.
  intros status started last_round failed
         Hdisk Hfits Hdone Hname Hon Hleft Hfailed.
  pose proof (processing_trace rt self file_path mime_type file_size s h) as Htrace.
  fold started in Htrace.
  destruct (after_rounds_trace rt rm self (remote_name h) k started)
    as (Hsent & Hcons & [Hh Hu] & _ & _).
  fold status last_round in Hsent, Hcons, Hh, Hu.
  assert (Hstart : List.length (sent started) = S (S (List.length (sent s)))).
  { rewrite Htrace, length_app. cbn [List.length]. lia. }
  assert (Hk : (k < 150)%nat).
  { pose proof (after_rounds_budget rt rm self (remote_name h) 300 (now started)
                  k started) as Hb.
    fold status last_round in Hb. unfold remaining in Hb, Hleft. lia. }
  assert (Hwait :
    wait_for_file_processing rt rm self (remote_name h) 300 started
    = (Ok ExitFailed, failed)).
  { unfold wait_for_file_processing. rewrite Hname. cbn [negb].
    unfold bind, get_state. change (Z.to_nat 300) with 300%nat.
    replace 300%nat with (k + S (299 - k))%nat by lia.
    rewrite (wait_loop_rounds rt rm self (remote_name h) 300 (now started) k).
    - apply wait_loop_stops_on_failed; [exact Hleft|].
      fold status last_round. rewrite Hsent, length_app, repeat_length, Hstart.
      exact Hfailed.
    - intros j Hj. rewrite Hstart. apply Hon. exact Hj.
    - exact Hleft. }
  assert (Hupload :
    upload_file_to_gemini rt rm self file_path s
    = (Ok (Some (Uploaded (file_uri h) mime_type)), failed)).
  { exact (upload_reaches_processing rt rm self file_path mime_type file_size s h
             Hdisk Hfits Hdone _ _ Hwait). }
  split; [exact Hupload|].
  split; [exact (read_video _ _ _ _ _ _ _ _ _ Hdisk Hupload)|].
  split.
  { unfold failed, answered. cbn [sent add_line advance record_request].
    rewrite Hsent, Htrace, <- !app_assoc. cbn [app].
    rewrite <- repeat_cons. reflexivity. }
  split.
  { unfold failed, answered. cbn [console add_line advance record_request].
    rewrite Hcons. reflexivity. }
  split.
  { unfold failed, answered.
    cbn [uploaded_files add_line advance record_request].
    rewrite Hu. unfold started, processing_started.
    cbn [uploaded_files add_line set_uploads].
    apply lookup_assign. }
  split.
  { unfold failed, answered.
    cbn [conversation_history add_line advance record_request].
    rewrite Hh. reflexivity. }
  intros fuel max_wait start_time st Hbudget Hst.
  now apply wait_loop_stops_on_failed.
Qed.

(** [FAILED] at the third poll, after two that said [PROCESSING]. *)
Lemma failed_processing_witness :
  exists s',
    upload_file_to_gemini Sample.machine (Sample.fails_after 2)
      Sample.chat "clip.mp4" Sample.fresh
    = (Ok (Some (Uploaded Sample.remote_uri "video/mp4")), s') /\
    List.length (polls (sent s')) = 3%nat /\
    console s'
    = ["📤 Uploading video file (0.0MB)..."; "⏳ Processing video...";
       "❌ Video processing failed"].
Proof.
  assert (Hdisk : video_on_disk Sample.machine Sample.chat "clip.mp4" "video/mp4" 28)
    by (repeat split; reflexivity).
  assert (Hfits : 28 <= max_size) by (unfold max_size; lia).
  assert (Hdone : handshake_done Sample.machine (Sample.fails_after 2)
                    Sample.chat "clip.mp4" "video/mp4" 28 Sample.fresh
                    Sample.handshake)
    by (repeat split; reflexivity).
  assert (Hon : forall j, (j < 2)%nat ->
            keeps_waiting
              (Sample.fails_after 2 (S (S (List.length (sent Sample.fresh))) + j)%nat
                 (status_request Sample.machine Sample.chat
                    (remote_name Sample.handshake))) = true).
  { intros [|[|j]] Hj; [reflexivity | reflexivity | lia]. }
  destruct (failed_processing_still_yields_the_reference
              Sample.machine (Sample.fails_after 2) Sample.chat
              "clip.mp4" "video/mp4" 28 Sample.fresh Sample.handshake 2
              Hdisk Hfits Hdone eq_refl Hon eq_refl eq_refl)
    as (Hupload & _ & Hsent & Hcons & _).
  eexists. split; [exact Hupload|]. split.
  - rewrite Hsent. reflexivity.
  - rewrite Hcons. reflexivity.
Defined.

(** C1 as stated fails: the upload goes through, the first status poll
    reports [FAILED], and the upload still returns the URI with its mime
    type, which [read_file_content] turns into a file reference. *)
Lemma failed_processing_is_still_referenced :
  fst (upload_file_to_gemini Sample.machine (Sample.upload_then 40 "FAILED")
         Sample.chat "clip.mp4" Sample.fresh)
    = Ok (Some (Uploaded Sample.remote_uri "video/mp4")) /\
  fst (read_file_content Sample.machine (Sample.upload_then 40 "FAILED")
         Sample.chat "clip.mp4" Sample.fresh)
    = Ok (Some (VDict [("file_data",
                        VDict [("file_uri", Sample.remote_uri);
                               ("mime_type", VStr "video/mp4")])])) /\
  console (snd (upload_file_to_gemini Sample.machine
                  (Sample.upload_then 40 "FAILED")
                  Sample.chat "clip.mp4" Sample.fresh))
    = ["📤 Uploading video file (0.0MB)..."; "⏳ Processing video...";
       "❌ Video processing failed"].
Proof. repeat split; vm_compute; reflexivity. Qed.

(** C2, as the code has it.  When every status poll reports
    [PROCESSING] and the transfer reply named the remote file, the loop
    sleeps two seconds after each poll, with no backoff, and stops at the
    first test of its condition that finds 300 seconds of wall-clock time
    gone since the processing began: the budget was positive before each
    of the [n] polls and is used up after the last one.  That is after at
    least one and at most 150 polls, and after exactly 150, at two-second
    intervals, when the status requests themselves take no time (each
    poll's own latency counts against the 300 seconds).  The time-out is
    soft: the warning is printed, and the upload returns the URI it had
    obtained, with the record in the table of uploads.  When the transfer
    reply named no file there is no poll and no warning, and the URI is
    returned all the same. *)
Theorem processing_forever_times_out_softly
  rt rm self file_path mime_type file_size s h :
  let status := status_request rt self (remote_name h) in
  let started := processing_started rt self file_path mime_type file_size h s in
  video_on_disk rt self file_path mime_type file_size ->
  file_size <= max_size ->
  handshake_done rt rm self file_path mime_type file_size s h ->
  (forall i, reported_state (rm i status) = Some (VStr "PROCESSING")) ->
  (Py.truthy (remote_name h) = true ->
   exists n,
     let timed_out := after_rounds rm status n started in
     (1 <= n <= 150)%nat /\
     upload_file_to_gemini rt rm self file_path s
       = (Ok (Some (Uploaded (file_uri h) mime_type)),
          add_line timeout_warning timed_out) /\
     (forall j, (j < n)%nat ->
        0 < remaining 300 (now started) (after_rounds rm status j started)) /\
     remaining 300 (now started) timed_out <= 0 /\
     sent timed_out
       = (sent s ++ [session_request rt self file_path mime_type file_size;
                     content_request h file_size]
          ++ repeat status n)%list /\
     console timed_out = console started /\
     Py.lookup (uploaded_files timed_out) file_path
       = Some (file_record h mime_type file_size) /\
     conversation_history timed_out = conversation_history s /\
     ((forall i, latency_of (rm i status) = 0%N) ->
      n = 150%nat /\ now timed_out = now started + 300000)) /\
  (Py.truthy (remote_name h) = false ->
   upload_file_to_gemini rt rm self file_path s
     = (Ok (Some (Uploaded (file_uri h) mime_type)), started)).
Proof.
  intros status started Hdisk Hfits Hdone Hproc. split; intros Hname.
  - destruct (wait_loop_runs_out rt rm self (remote_name h) 300 (now started)
                (Z.to_nat 300)
                (fun i => processing_keeps_waiting _ (Hproc i)) started)
      as (n & Hrun & Hbefore & Hend & Hn & Hone & Hzero).
    { unfold remaining. lia. }
    fold status in Hrun, Hbefore, Hend, Hzero.
    destruct (after_rounds_trace rt rm self (remote_name h) n started)
      as (Hsent & Hcons & [Hh Hu] & _ & Hexact).
    fold status in Hsent, Hcons, Hh, Hu, Hexact.
    assert (Hfull : remaining 300 (now started) started = 300000)
      by (unfold remaining; lia).
    exists n. cbv zeta. repeat split.
    + apply Hone. lia.
    + lia.
    + apply (upload_reaches_processing rt rm self file_path mime_type file_size
               s h Hdisk Hfits Hdone ExitTimedOut).
      unfold wait_for_file_processing. rewrite Hname. cbn [negb].
      unfold bind, get_state. exact Hrun.
    + exact Hbefore.
    + exact Hend.
    + rewrite Hsent. unfold started.
      rewrite processing_trace, <- app_assoc. reflexivity.
    + exact Hcons.
    + rewrite Hu. unfold started, processing_started.
      cbn [uploaded_files add_line set_uploads]. apply lookup_assign.
    + rewrite Hh. reflexivity.
    + specialize (Hzero H). lia.
    + rewrite (Hexact H). specialize (Hzero H). lia.
  - apply (upload_reaches_processing rt rm self file_path mime_type file_size
             s h Hdisk Hfits Hdone ExitNoName).
    unfold wait_for_file_processing. rewrite Hname. reflexivity.
Qed.

Lemma processing_forever_witness :
  exists n,
    upload_file_to_gemini Sample.machine (Sample.upload_then 0 "PROCESSING")
      Sample.chat "clip.mp4" Sample.fresh
    = (Ok (Some (Uploaded Sample.remote_uri "video/mp4")),
       add_line timeout_warning
         (after_rounds (Sample.upload_then 0 "PROCESSING")
            (status_request Sample.machine Sample.chat
               (remote_name Sample.handshake))
            n
            (processing_started Sample.machine Sample.chat "clip.mp4" "video/mp4"
               28 Sample.handshake Sample.fresh))) /\
    n = 150%nat.
Proof.
  assert (Hdisk : video_on_disk Sample.machine Sample.chat "clip.mp4" "video/mp4" 28)
    by (repeat split; reflexivity).
  assert (Hfits : 28 <= max_size) by (unfold max_size; lia).
  assert (Hdone : handshake_done Sample.machine (Sample.upload_then 0 "PROCESSING")
                    Sample.chat "clip.mp4" "video/mp4" 28 Sample.fresh
                    Sample.handshake)
    by (repeat split; reflexivity).
  assert (Hproc : forall i,
             reported_state (Sample.upload_then 0 "PROCESSING" i
                               (status_request Sample.machine Sample.chat
                                  (remote_name Sample.handshake)))
             = Some (VStr "PROCESSING")).
  { intros i. reflexivity. }
  assert (Hzero : forall i,
             latency_of (Sample.upload_then 0 "PROCESSING" i
                           (status_request Sample.machine Sample.chat
                              (remote_name Sample.handshake))) = 0%N).
  { intros i. reflexivity. }
  destruct (proj1 (processing_forever_times_out_softly
                     Sample.machine (Sample.upload_then 0 "PROCESSING") Sample.chat
                     "clip.mp4" "video/mp4" 28 Sample.fresh Sample.handshake
                     Hdisk Hfits Hdone Hproc) eq_refl)
    as (n & _ & Hupload & _ & _ & _ & _ & _ & _ & Hexact).
  exists n. split; [exact Hupload|]. exact (proj1 (Hexact Hzero)).
Defined.

(** C2 as stated fails: when each status request takes one second to
    come back, a round lasts three seconds and the 300 seconds are over
    after 100 polls, not 150. *)
Lemma slow_status_replies_end_the_wait_after_100_polls :
  fst (upload_file_to_gemini Sample.machine (Sample.upload_then 1000 "PROCESSING")
         Sample.chat "clip.mp4" Sample.fresh)
    = Ok (Some (Uploaded Sample.remote_uri "video/mp4")) /\
  List.length
    (polls (sent (snd (upload_file_to_gemini Sample.machine
                         (Sample.upload_then 1000 "PROCESSING")
                         Sample.chat "clip.mp4" Sample.fresh))))
    = 100%nat /\
  last (console (snd (upload_file_to_gemini Sample.machine
                        (Sample.upload_then 1000 "PROCESSING")
                        Sample.chat "clip.mp4" Sample.fresh))) ""
    = timeout_warning.
Proof. repeat split; vm_compute; reflexivity. Qed.

(** C5, as the code has it.  [is_file_accessible] is true exactly when
    the path resolves and the string of its resolved form starts with the
    string of some allowed directory; it is false when the resolution
    raises, and false when no allowed directory is a string prefix of the
    resolved form, as for [../../etc/passwd] seen from the allowed
    directory [/srv/app].  Whether the path or its parent exists plays no
    part.  The check is a function of the path and the allowed
    directories alone: it reads no state and changes none. *)
Theorem access_is_a_prefix_test_on_resolved_paths rt self file_path :
  (is_file_accessible rt self file_path = true <->
   exists resolved root rest,
     resolve rt file_path = Some resolved /\
     In root (allowed_dirs self) /\
     resolved = root ++ rest) /\
  (resolve rt file_path = None ->
   is_file_accessible rt self file_path = false) /\
  (forall resolved,
     resolve rt file_path = Some resolved ->
     (forall root rest, In root (allowed_dirs self) -> resolved <> root ++ rest) ->
     is_file_accessible rt self file_path = false) /\
  is_file_accessible Sample.machine Sample.chat "../../etc/passwd" = false.
Proof.
  split; [apply is_file_accessible_iff|].
  split.
  { intros Hnone. unfold is_file_accessible. now rewrite Hnone. }
  split; [|reflexivity].
  intros resolved Hres Hout.
  destruct (is_file_accessible rt self file_path) eqn:E; [|reflexivity].
  apply is_file_accessible_iff in E.
  destruct E as (r & root & rest & Hr & Hin & Heq).
  rewrite Hres in Hr. inversion Hr; subst.
  exfalso. exact (Hout root rest Hin eq_refl).
Qed.

Lemma access_witness :
  is_file_accessible Sample.machine Sample.chat "notes.txt" = true /\
  is_file_accessible Sample.machine Sample.chat
    (String (ascii_of_nat 0) "notes.txt") = false.
Proof.
  split.
  - apply (proj1 (access_is_a_prefix_test_on_resolved_paths
                    Sample.machine Sample.chat "notes.txt")).
    exists "/srv/app/notes.txt", "/srv/app", "/notes.txt".
    repeat split; [now left].
  - apply (proj1 (proj2 (access_is_a_prefix_test_on_resolved_paths
                           Sample.machine Sample.chat
                           (String (ascii_of_nat 0) "notes.txt")))).
    reflexivity.
Defined.

(** C5 as stated fails: with [/srv/app] the only allowed directory, a
    path under a directory that does not exist is accessible, because the
    resolution is not strict and keeps the missing components; so is a
    path in the sibling directory [/srv/app-private], whose resolved
    string starts with the string [/srv/app]. *)
Lemma missing_parent_is_accessible :
  exists_ Sample.machine "/srv/app/missing" = Val false /\
  exists_ Sample.machine "/srv/app/missing/notes.txt" = Val false /\
  is_file_accessible Sample.machine Sample.chat "/srv/app/missing/notes.txt"
    = true /\
  resolve Sample.machine "../app-private/key.txt"
    = Some "/srv/app-private/key.txt" /\
  is_file_accessible Sample.machine Sample.chat "../app-private/key.txt" = true.
Proof. repeat split; vm_compute; reflexivity. Qed.

(** C6.  A chat send that comes back with status 200 and a first
    candidate whose text is [v] appends two turns to the history, in this
    order: the user turn with the prompt as its only text part, then the
    model turn with [v] as its only text part; and it returns [v].  With
    prompt "hello" and candidate text "hi" on an empty history, the
    history is then exactly these two turns. *)
Theorem chat_round_trip rt rm self message s latency r result v :
  rm (List.length (sent s)) (prompt_request self message s)
    = Responded latency r ->
  status_code r = 200 ->
  json r = Val result ->
  first_candidate_text result = Val v ->
  exists s',
    call_gemini rt rm self message s = (Ok v, s') /\
    conversation_history s' =
      (conversation_history s
       ++ [user_turn [text_value (VStr message)]; model_turn [text_value v]])%list /\
    uploaded_files s' = uploaded_files s.
Proof.
  intros Hreply Hstatus Hjson Hpath.
  eexists. split.
  - apply call_gemini_success. rewrite Hreply.
    exact (first_candidate_reply latency r result v Hstatus Hjson Hpath).
  - split; reflexivity.
Qed.

Lemma chat_round_trip_witness :
  exists s',
    call_gemini Sample.machine Sample.says_hi Sample.chat "hello" Sample.fresh
      = (Ok (VStr "hi"), s') /\
    conversation_history s' =
      [ VDict [("role", VStr "user");
               ("parts", VList [VDict [("text", VStr "hello")]])];
        VDict [("role", VStr "model");
               ("parts", VList [VDict [("text", VStr "hi")]])] ].
Proof.
  destruct (chat_round_trip Sample.machine Sample.says_hi Sample.chat "hello"
              Sample.fresh 300
              (Sample.response 200 [("Content-Type", "application/json")]
                 "{...}" (Val Sample.reply_hi))
              Sample.reply_hi (VStr "hi") eq_refl eq_refl eq_refl eq_refl)
    as (s' & Hrun & Hhist & _).
  exists s'. split; [exact Hrun | exact Hhist].
Defined.

(** C7.  An input that starts with [/clear] empties the history and
    leaves the table of uploads as it is; an input that starts with
    [/cleanup] empties the table of uploads, whether or not the remote
    deletions succeed, and leaves the history as it is. *)
Theorem clear_and_cleanup_touch_one_structure_each
  rt rm self clear_input cleanup_input s :
  Py.startswith clear_input "/clear" = true ->
  Py.startswith cleanup_input "/cleanup" = true ->
  (process_message rt rm self clear_input s
     = (Ok (VStr "🧹 Conversation history cleared"), set_history [] s) /\
   conversation_history (set_history [] s) = [] /\
   uploaded_files (set_history [] s) = uploaded_files s) /\
  (exists cleaned s',
     process_message rt rm self cleanup_input s
       = (Ok (VStr ("🧹 Cleaned up " ++ Py.str_int cleaned ++ " uploaded files")),
          s') /\
     uploaded_files s' = [] /\
     conversation_history s' = conversation_history s).
Proof.
  intros Hclear Hcleanup. split.
  - destruct (route_clear _ Hclear) as (R1 & R2 & R3 & R4).
    unfold process_message. rewrite R1, R2, R3, R4, Hclear.
    repeat split.
  - destruct (route_cleanup _ Hcleanup) as (R1 & R2 & R3 & R4 & R5).
    unfold process_message. rewrite R1, R2, R3, R4, R5, Hcleanup.
    cbn [orb]. unfold bind at 1. unfold get_state.
    destruct (cleanup_loop_empties rt rm self (uploaded_files s) 0 s eq_refl)
      as (n & s' & Hrun & Hempty & Hhist).
    exists n, s'. unfold bind. rewrite Hrun. repeat split; assumption.
Qed.

Lemma clear_and_cleanup_witness :
  fst (process_message Sample.machine (Sample.scripted [] Sample.refused)
         Sample.chat "/clear" Sample.busy)
    = Ok (VStr "🧹 Conversation history cleared") /\
  exists cleaned s',
    process_message Sample.machine (Sample.scripted [] Sample.refused)
      Sample.chat "/cleanup" Sample.busy
      = (Ok (VStr ("🧹 Cleaned up " ++ Py.str_int cleaned ++ " uploaded files")),
         s') /\
    uploaded_files s' = [] /\
    conversation_history s' = conversation_history Sample.busy.
Proof.
  destruct (clear_and_cleanup_touch_one_structure_each
              Sample.machine (Sample.scripted [] Sample.refused) Sample.chat
              "/clear" "/cleanup" Sample.busy eq_refl eq_refl)
    as [(Hclear & _) Hcleanup].
  split; [now rewrite Hclear | exact Hcleanup].
Defined.

(** C8.  The category is a function of the lower-cased suffix and the
    guessed mime type, so it is defined on every input and has one value
    there.  A suffix of the video set gives [Video] whatever the guessed
    mime type is, a text type included, because the test on the video
    set comes first; and for such a file, accessible and present,
    [read_file_content] returns what the upload gave, as a part, and
    never the text of the file. *)
Theorem video_extension_is_classified_video ext :
  In ext video_extensions ->
  (forall e m, exists c, classify e m = c /\ forall c', classify e m = c' -> c' = c) /\
  (forall mime_type, classify ext mime_type = Video) /\
  classify ".mp4" (Some "text/plain") = Video /\
  (forall rt rm self file_path s,
     lower rt (suffix rt file_path) = ext ->
     is_file_accessible rt self file_path = true ->
     exists_ rt file_path = Val true ->
     exists r s',
       upload_file_to_gemini rt rm self file_path s = (Ok r, s') /\
       read_file_content rt rm self file_path s
         = (Ok (Some (video_part file_path r)), s')).
Proof.
  intros Hin. apply in_set_In in Hin.
  split.
  { intros e m. exists (classify e m). split; [reflexivity | congruence]. }
  split; [intros m; now apply classify_video|].
  split; [reflexivity|].
  intros rt rm self file_path s Hext Hacc Hex.
  destruct (upload_file_to_gemini_quiet rt rm self file_path s)
    as (r & s' & Hupload & _).
  exists r, s'. split; [exact Hupload|].
  rewrite read_file_content_by_category, Hacc, Hex, bind_lift_val. cbn [negb].
  rewrite Hext, (classify_video _ _ Hin).
  unfold try_except, bind. rewrite Hupload. reflexivity.
Qed.

Lemma video_extension_witness :
  In ".mp4" video_extensions /\
  classify ".mp4" (Some "text/html") = Video.
Proof.
  assert (Hin : In ".mp4" video_extensions) by (left; reflexivity).
  split; [exact Hin|].
  exact (proj1 (proj2 (video_extension_is_classified_video ".mp4" Hin))
           (Some "text/html")).
Defined.

(** C9.  An input that starts with [/uploads], when the table of uploads
    is not empty, makes [process_message] return [None]: the branch
    builds the listing and ends without a [return], and no other branch
    runs.  The state is unchanged. *)
Theorem uploads_command_returns_none rt rm self user_input s :
  Py.startswith user_input "/uploads" = true ->
  uploaded_files s <> [] ->
  process_message rt rm self user_input s = (Ok VNone, s) /\
  uploads_listing rt (uploaded_files s) <> [].
Proof.
  intros Hroute Hfiles.
  destruct (route_uploads _ Hroute) as (R1 & R2 & R3 & R4 & R5 & R6).
  unfold process_message. rewrite R1, R2, R3, R4, R5, R6, Hroute.
  cbn [orb]. unfold bind, get_state.
  destruct (uploaded_files s) as [|entry rest]; [contradiction|].
  split; [reflexivity | discriminate].
Qed.

Lemma uploads_command_witness :
  process_message Sample.machine (Sample.scripted [] Sample.refused)
    Sample.chat "/uploads" Sample.busy = (Ok VNone, Sample.busy) /\
  uploads_listing Sample.machine (uploaded_files Sample.busy)
    = ["🎬 clip.mp4 (0.0MB)"].
Proof.
  assert (Hfiles : uploaded_files Sample.busy <> []) by discriminate.
  split.
  - exact (proj1 (uploads_command_returns_none
                    Sample.machine (Sample.scripted [] Sample.refused)
                    Sample.chat "/uploads" Sample.busy eq_refl Hfiles)).
  - reflexivity.
Defined.



(** * Further properties of the code *)

(** ** Deleting *)

Lemma delete_uploaded_file_result rt rm self file_name s :
  delete_uploaded_file rt rm self file_name s =
    (Ok (match rm (List.length (sent s)) (delete_request rt self file_name) with
         | Responded _ r => status_code r =? 204
         | Failed _ _ => false
         end),
     answered rm (delete_request rt self file_name) s).
Proof.
  unfold delete_uploaded_file, answered. run_monad. fold (delete_request rt self file_name).
  destruct (rm (List.length (sent s)) (delete_request rt self file_name));
    reflexivity.
Qed.

(** X1.  [delete_uploaded_file] sends one DELETE for the file name and
    returns [True] exactly when a response with status 204 comes back; on
    any other status and on any exception it returns [False].  It never
    raises, and it changes neither the history nor the table of
    uploads. *)
Theorem delete_succeeds_only_on_204 rt rm self file_name s :
  exists deleted s',
    delete_uploaded_file rt rm self file_name s = (Ok deleted, s') /\
    sent s' = (sent s ++ [delete_request rt self file_name])%list /\
    same_store s s' /\
    (deleted = true <->
     exists latency r,
       rm (List.length (sent s)) (delete_request rt self file_name)
         = Responded latency r /\
       status_code r = 204).
Proof.
  rewrite delete_uploaded_file_result. do 2 eexists.
  split; [reflexivity|]. split; [reflexivity|]. split; [split; reflexivity|].
  destruct (rm (List.length (sent s)) (delete_request rt self file_name))
    as [latency r|latency e].
  - rewrite Z.eqb_eq. split.
    + intros H. now exists latency, r.
    + intros (l & r' & Heq & H). now inversion Heq; subst.
  - split; [discriminate|]. intros (l & r' & Heq & _). discriminate.
Qed.

(** What the loop of [/cleanup] sends and counts. *)
Lemma cleanup_loop_counts rt rm self items :
  forall cleaned s,
    exists n s',
      cleanup_loop rt rm self items cleaned s = (Ok n, s') /\
      sent s' = (sent s ++ map (delete_request rt self) (deletable items))%list /\
      cleaned <= n <= cleaned + Z.of_nat (List.length (deletable items)) /\
      ((forall k name latency e,
          rm k (delete_request rt self name) <> Failed latency e) ->
       (forall k name latency r,
          rm k (delete_request rt self name) = Responded latency r ->
          status_code r = 204) ->
       n = cleaned + Z.of_nat (List.length (deletable items))).
Proof.
  induction items as [|[file_path file_info] rest IH]; intros cleaned s.
  - exists cleaned, s. cbn [cleanup_loop deletable filter map List.length].
    repeat split; try lia. now rewrite app_nil_r.
  - cbn [cleanup_loop]. unfold deletable. cbn [filter snd].
    fold (deletable rest).
    destruct (Py.truthy (info_name file_info)) eqn:Hname.
    + unfold bind at 1. unfold bind at 1.
      rewrite delete_uploaded_file_result.
      unfold ret at 1. unfold bind at 1. unfold modify at 1.
      match goal with
      | |- context [cleanup_loop rt rm self rest ?c ?st] =>
          destruct (IH c st) as (n & s' & Hrun & Hsent & Hn & Hall)
      end.
      exists n, s'. split; [exact Hrun|].
      split.
      { rewrite Hsent. unfold answered.
        cbn [sent set_uploads advance record_request map List.length].
        fold (deletable rest). rewrite <- app_assoc. reflexivity. }
      split.
      { cbn [map List.length]. fold (deletable rest).
        destruct (rm (List.length (sent s))
                     (delete_request rt self (info_name file_info)))
          as [l r|l e]; [destruct (status_code r =? 204)|]; lia. }
      intros Hnofail H204. specialize (Hall Hnofail H204).
      cbn [map List.length]. fold (deletable rest).
      destruct (rm (List.length (sent s))
                   (delete_request rt self (info_name file_info)))
        as [l r|l e] eqn:Hreply.
      * rewrite (H204 _ _ _ _ Hreply) in Hall. cbn in Hall. lia.
      * exfalso. exact (Hnofail _ _ _ _ Hreply).
    + unfold bind at 1. unfold ret at 1. unfold bind at 1. unfold modify at 1.
      match goal with
      | |- context [cleanup_loop rt rm self rest ?c ?st] =>
          destruct (IH c st) as (n & s' & Hrun & Hsent & Hn & Hall)
      end.
      exists n, s'. split; [exact Hrun|]. split; [exact Hsent|].
      split; [exact Hn | exact Hall].
Qed.

(** X2.  [/cleanup] sends one DELETE for each record whose remote name
    is truthy, in the order of the table, and nothing else; the number it
    reports is at most the number of these requests, and equals it when
    every DELETE is answered with status 204.  Records without a name
    are dropped from the table without any request. *)
Theorem cleanup_deletes_each_named_record rt rm self user_input s :
  Py.startswith user_input "/cleanup" = true ->
  exists cleaned s',
    process_message rt rm self user_input s
      = (Ok (VStr ("🧹 Cleaned up " ++ Py.str_int cleaned ++ " uploaded files")),
         s') /\
    sent s' = (sent s ++ map (delete_request rt self)
                             (deletable (uploaded_files s)))%list /\
    0 <= cleaned <= Z.of_nat (List.length (deletable (uploaded_files s))) /\
    ((forall k name latency e,
        rm k (delete_request rt self name) <> Failed latency e) ->
     (forall k name latency r,
        rm k (delete_request rt self name) = Responded latency r ->
        status_code r = 204) ->
     cleaned = Z.of_nat (List.length (deletable (uploaded_files s)))).
Proof.
  intros Hroute.
  destruct (route_cleanup _ Hroute) as (R1 & R2 & R3 & R4 & R5).
  unfold process_message. rewrite R1, R2, R3, R4, R5, Hroute.
  cbn [orb]. unfold bind at 1. unfold get_state.
  destruct (cleanup_loop_counts rt rm self (uploaded_files s) 0 s)
    as (n & s' & Hrun & Hsent & Hn & Hall).
  exists n, s'. unfold bind. rewrite Hrun.
  split; [reflexivity|]. split; [exact Hsent|]. split; [lia|].
  intros A B. specialize (Hall A B). lia.
Qed.

Lemma cleanup_deletes_witness :
  exists s',
    process_message Sample.machine Sample.deleting Sample.chat "/cleanup"
      Sample.busy
      = (Ok (VStr "🧹 Cleaned up 1 uploaded files"), s') /\
    List.length (sent s') = 1%nat.
Proof.
  destruct (cleanup_deletes_each_named_record
              Sample.machine Sample.deleting Sample.chat "/cleanup" Sample.busy
              eq_refl)
    as (cleaned & s' & Hrun & Hsent & _ & Hall).
  assert (Hc : cleaned = 1).
  { apply Hall.
    - intros k name latency e H. discriminate H.
    - intros k name latency r H. inversion H. reflexivity. }
  subst cleaned. exists s'. split; [exact Hrun|]. rewrite Hsent. reflexivity.
Defined.

Lemma teardown_requests rt rm self items :
  forall s,
    exists s',
      teardown rt rm self items s = (Ok tt, s') /\
      sent s' = (sent s ++ map (delete_request rt self) (deletable items))%list /\
      same_store s s'.
Proof.
  induction items as [|[file_path file_info] rest IH]; intros s.
  - exists s. cbn [teardown deletable filter map].
    repeat split. now rewrite app_nil_r.
  - cbn [teardown]. unfold deletable. cbn [filter snd]. fold (deletable rest).
    destruct (Py.truthy (info_name file_info)).
    + unfold bind at 1. unfold bind at 1. rewrite delete_uploaded_file_result.
      unfold ret at 1.
      match goal with
      | |- context [teardown rt rm self rest ?st] =>
          destruct (IH st) as (s' & Hrun & Hsent & [Hh Hu])
      end.
      exists s'. split; [exact Hrun|]. split.
      * rewrite Hsent. unfold answered.
        cbn [sent advance record_request map]. fold (deletable rest).
        rewrite <- app_assoc. reflexivity.
      * split; [rewrite Hh | rewrite Hu]; reflexivity.
    + unfold bind at 1. unfold ret at 1.
      destruct (IH s) as (s' & Hrun & Hsent & Hstore).
      exists s'. split; [exact Hrun|]. split; [exact Hsent | exact Hstore].
Qed.

(** X3.  On Ctrl+C at the prompt, [run] sends one DELETE for each record
    with a truthy remote name and ends; unlike [/cleanup] it leaves the
    records in the table, and the inputs that follow are not read. *)
Theorem interrupt_deletes_remote_files_and_ends rt rm self tty rest s :
  exists s',
    run_loop rt rm self tty (Interrupt :: rest) s = (Ok tt, s') /\
    sent s' = (sent s ++ map (delete_request rt self)
                             (deletable (uploaded_files s)))%list /\
    uploaded_files s' = uploaded_files s /\
    conversation_history s' = conversation_history s /\
    last (console s') "" = "👋 Goodbye!".
Proof.
  cbn [run_loop]. unfold bind, print, modify, get_state.
  cbn [uploaded_files add_line].
  match goal with
  | |- context [teardown rt rm self ?items ?st] =>
      destruct (teardown_requests rt rm self items st)
        as (s1 & -> & Hsent & [Hh Hu])
  end.
  eexists. split; [reflexivity|].
  cbn [sent uploaded_files conversation_history console add_line] in *.
  repeat split; try assumption.
  apply last_last.
Qed.

(** ** Waiting *)

(** X4.  [wait_for_file_processing] returns on every remote and never
    raises.  It sends only status requests for the file name, at most
    [max_wait / 2] of them rounded up (150 for the default 300 seconds,
    none when [max_wait] is not positive), and it changes neither the
    history nor the table of uploads.  With a falsy file name it returns
    at once: no request, nothing printed. *)
Theorem wait_is_bounded_on_every_remote rt rm self file_name max_wait s :
  exists e s' n,
    wait_for_file_processing rt rm self file_name max_wait s = (Ok e, s') /\
    same_store s s' /\
    sent s' = (sent s ++ repeat (status_request rt self file_name) n)%list /\
    2 * Z.of_nat n < Z.max max_wait 0 + 2 /\
    (max_wait = 300 -> (n <= 150)%nat) /\
    (max_wait <= 0 -> n = O) /\
    (Py.truthy file_name = false -> e = ExitNoName /\ s' = s).
Proof.
  destruct (Py.truthy file_name) eqn:Hname.
  - destruct (wait_for_file_processing_total rt rm self file_name max_wait s)
      as (e & s' & n & Hrun & Hstore & Hsent & Hn).
    exists e, s', n. split; [exact Hrun|]. split; [exact Hstore|].
    split; [exact Hsent|]. repeat split; try lia; discriminate.
  - exists ExitNoName, s, O. unfold wait_for_file_processing.
    rewrite Hname. cbn [negb repeat].
    split; [reflexivity|]. split; [apply same_store_refl|].
    split; [now rewrite app_nil_r|]. repeat split; lia.
Qed.

Section PollingRounds.

Variables (rt : Runtime) (rm : Remote) (self : GeminiChat) (file_name : value).
Variables (max_wait start_time : Z).

Local Notation status := (status_request rt self file_name).
Local Notation loop fuel := (wait_loop fuel rt rm self file_name max_wait start_time).

Lemma poll_once_raises s e :
  poll_error (rm (List.length (sent s)) status) = Some e ->
  poll_once rt rm self file_name s =
    (Ok Break,
     add_line ("⚠️ Error checking processing status: " ++ str_exn rt e)
       (answered rm status s)).
Proof.
  unfold poll_error, answered, poll_once. run_monad.
  intros H. repeat (break_match; simpl in *; try discriminate).
  all: inversion H; subst; reflexivity.
Qed.

(** X5.  In any round of the polling loop, an exception (the request
    raises, or the body of a 200 is not JSON, or is not a dict) ends the
    wait at once: the error is printed, then the time-out warning, and no
    further status request is sent. *)
Theorem polling_stops_at_the_first_exception fuel s e :
  0 < remaining max_wait start_time s ->
  poll_error (rm (List.length (sent s)) status) = Some e ->
  loop (S fuel) s =
    (Ok ExitAborted,
     add_line timeout_warning
       (add_line ("⚠️ Error checking processing status: " ++ str_exn rt e)
          (answered rm status s))).
Proof.
  intros Hleft Herr.
  rewrite (wait_loop_round rt rm self file_name max_wait start_time fuel s Hleft).
  now rewrite (poll_once_raises s e Herr).
Qed.

(** X6.  In any round of the polling loop, a response whose status is
    not 200, or a 200 whose state is neither ACTIVE nor FAILED, does not
    end the wait: the loop sleeps two seconds and polls again. *)
Theorem polling_goes_on_after_other_replies fuel s :
  0 < remaining max_wait start_time s ->
  keeps_waiting (rm (List.length (sent s)) status) = true ->
  loop (S fuel) s = loop fuel (advance 2000 (answered rm status s)).
Proof.
  intros Hleft Hon.
  rewrite (wait_loop_round rt rm self file_name max_wait start_time fuel s Hleft).
  now rewrite (poll_once_goes_on rt rm self file_name s Hon).
Qed.

End PollingRounds.

Lemma polling_stops_witness :
  wait_loop 1 Sample.machine Sample.status_unreachable Sample.chat
    (VStr "files/abc123") 300 0 Sample.fresh
  = (Ok ExitAborted,
     add_line timeout_warning
       (add_line "⚠️ Error checking processing status: Read timed out."
          (answered Sample.status_unreachable
             (status_request Sample.machine Sample.chat (VStr "files/abc123"))
             Sample.fresh))).
Proof.
  apply (polling_stops_at_the_first_exception
           Sample.machine Sample.status_unreachable Sample.chat
           (VStr "files/abc123") 300 0 0 Sample.fresh (Timeout "Read timed out.")).
  - reflexivity.
  - reflexivity.
Defined.

Lemma polling_goes_on_witness :
  wait_loop 1 Sample.machine Sample.status_broken Sample.chat
    (VStr "files/abc123") 300 0 Sample.fresh
  = wait_loop 0 Sample.machine Sample.status_broken Sample.chat
      (VStr "files/abc123") 300 0
      (advance 2000
         (answered Sample.status_broken
            (status_request Sample.machine Sample.chat (VStr "files/abc123"))
            Sample.fresh)).
Proof.
  apply (polling_goes_on_after_other_replies
           Sample.machine Sample.status_broken Sample.chat
           (VStr "files/abc123") 300 0 0 Sample.fresh).
  - reflexivity.
  - reflexivity.
Defined.

(** X7.  When the upload went through and the first status poll reports
    [ACTIVE], the wait ends after exactly that one poll, without sleeping,
    and the upload returns the URI and the mime type; the record is in
    the table of uploads. *)
Theorem active_on_first_poll_ends_the_wait
  rt rm self file_path mime_type file_size s h :
  video_on_disk rt self file_path mime_type file_size ->
  file_size <= max_size ->
  handshake_done rt rm self file_path mime_type file_size s h ->
  Py.truthy (remote_name h) = true ->
  reported_state (rm (S (S (List.length (sent s))))
                     (status_request rt self (remote_name h)))
    = Some (VStr "ACTIVE") ->
  let active :=
    add_line "✅ Video processing complete!"
      (answered rm (status_request rt self (remote_name h))
         (processing_started rt self file_path mime_type file_size h s)) in
  upload_file_to_gemini rt rm self file_path s
    = (Ok (Some (Uploaded (file_uri h) mime_type)), active) /\
  sent active
    = (sent s ++ [session_request rt self file_path mime_type file_size;
                  content_request h file_size;
                  status_request rt self (remote_name h)])%list /\
  now active
    = now s + Z.of_N (session_latency h) + Z.of_N (transfer_latency h)
      + Z.of_N (latency_of (rm (S (S (List.length (sent s))))
                               (status_request rt self (remote_name h)))) /\
  Py.lookup (uploaded_files active) file_path
    = Some (file_record h mime_type file_size).
Proof.
  intros Hdisk Hfits Hdone Hname Hactive active.
  pose proof (processing_trace rt self file_path mime_type file_size s h) as Htrace.
  assert (Hlen :
    List.length (sent (processing_started rt self file_path mime_type file_size h s))
    = S (S (List.length (sent s)))).
  { rewrite Htrace, length_app. cbn [List.length]. lia. }
  assert (Hwait :
    wait_for_file_processing rt rm self (remote_name h) 300
      (processing_started rt self file_path mime_type file_size h s)
    = (Ok ExitActive, active)).
  { unfold wait_for_file_processing. rewrite Hname. cbn [negb].
    unfold bind, get_state. change (Z.to_nat 300) with (S 299).
    apply wait_loop_stops_on_active.
    - unfold remaining. lia.
    - rewrite Hlen. exact Hactive. }
  split.
  { exact (upload_reaches_processing rt rm self file_path mime_type file_size s h
             Hdisk Hfits Hdone _ _ Hwait). }
  split.
  { unfold active, answered. cbn [sent add_line advance record_request].
    rewrite Htrace, <- app_assoc. reflexivity. }
  split.
  { unfold active, answered. rewrite Hlen.
    unfold processing_started, session_answered, announced.
    cbn [now add_line advance record_request set_uploads]. lia. }
  unfold active, answered, processing_started.
  cbn [uploaded_files add_line advance record_request set_uploads].
  apply lookup_assign.
Qed.

Lemma active_on_first_poll_witness :
  exists s',
    upload_file_to_gemini Sample.machine (Sample.upload_then 40 "ACTIVE")
      Sample.chat "clip.mp4" Sample.fresh
    = (Ok (Some (Uploaded Sample.remote_uri "video/mp4")), s') /\
    now s' = 1060.
Proof.
  assert (Hdisk : video_on_disk Sample.machine Sample.chat "clip.mp4" "video/mp4" 28)
    by (repeat split; reflexivity).
  assert (Hfits : 28 <= max_size) by (unfold max_size; lia).
  assert (Hdone : handshake_done Sample.machine (Sample.upload_then 40 "ACTIVE")
                    Sample.chat "clip.mp4" "video/mp4" 28 Sample.fresh
                    Sample.handshake)
    by (repeat split; reflexivity).
  destruct (active_on_first_poll_ends_the_wait
              Sample.machine (Sample.upload_then 40 "ACTIVE") Sample.chat
              "clip.mp4" "video/mp4" 28 Sample.fresh Sample.handshake
              Hdisk Hfits Hdone eq_refl eq_refl)
    as (Hupload & _ & Hnow & _).
  eexists. split; [exact Hupload|]. rewrite Hnow. reflexivity.
Defined.

(** ** Uploading, on every remote *)

Lemma lookup_assign_other {A : Type} (d : list (string * A)) (k k' : string) (v : A) :
  k' <> k -> Py.lookup (Py.assign d k v) k' = Py.lookup d k'.
Proof.
  intros Hne. induction d as [|[k0 v0] d IH]; simpl.
  - destruct (k =? k')%string eqn:E; [|reflexivity].
    apply String.eqb_eq in E. congruence.
  - destruct (k0 =? k)%string eqn:E; simpl.
    + apply String.eqb_eq in E. subst k0.
      destruct (k =? k')%string eqn:E'; [|reflexivity].
      apply String.eqb_eq in E'. congruence.
    + destruct (k0 =? k')%string; [reflexivity | exact IH].
Qed.

(** X8.  [upload_file_to_gemini] never raises, whatever the file system
    and the remote do, and it leaves the history alone.  It writes a
    record for the path into the table of uploads exactly when it
    returns a URI, and the record holds that URI and mime type; when it
    returns [None] or an error the table is as before. *)
Theorem upload_records_exactly_what_it_returns rt rm self file_path s :
  exists r s',
    upload_file_to_gemini rt rm self file_path s = (Ok r, s') /\
    conversation_history s' = conversation_history s /\
    match r with
    | Some (Uploaded uri mime_type) =>
        exists name size,
          uploaded_files s' =
            Py.assign (uploaded_files s) file_path
              {| info_uri := uri; info_name := name;
                 info_mime_type := mime_type; info_size := size |}
    | _ => uploaded_files s' = uploaded_files s
    end.
Proof.
  unfold upload_file_to_gemini, upload_failed, file_field. run_monad.
  repeat first
    [ match goal with
      | |- context [wait_for_file_processing ?a ?b ?c ?d ?e ?st] =>
          let Hw := fresh "Hw" in
          destruct (wait_for_file_processing_total a b c d e st)
            as (? & ? & ? & Hw & [? ?] & ? & ?);
          rewrite Hw
      end
    | break_match ];
    do 2 eexists; (split; [reflexivity|]);
    cbn [conversation_history uploaded_files add_line advance record_request
         set_uploads] in *;
    (split; [congruence|]);
    try reflexivity;
    do 2 eexists; eassumption.
Qed.



(** X10.  When the session request itself raises (a timeout, a refused
    connection), the upload's own [except] turns it into the error
    "Error uploading file: <str(e)>": one request was sent, the
    exception is printed, no record is written, and nothing is raised to
    the caller. *)
Theorem session_exception_becomes_an_error_result
  rt rm self file_path mime_type file_size s latency e :
  video_on_disk rt self file_path mime_type file_size ->
  file_size <= max_size ->
  rm (List.length (sent s)) (session_request rt self file_path mime_type file_size)
    = Failed latency e ->
  upload_file_to_gemini rt rm self file_path s
    = (Ok (Some (UploadError ("Error uploading file: " ++ str_exn rt e))),
       add_line ("Exception during upload: " ++ str_exn rt e)
         (session_answered rt self file_path mime_type file_size latency s)) /\
  uploaded_files (session_answered rt self file_path mime_type file_size latency s)
    = uploaded_files s.
Proof.
  intros (accessible & present & is_video & measured) Hfits Hreply.
  split; [|reflexivity].
  unfold upload_file_to_gemini.
  rewrite accessible, present, bind_lift_val, is_video. cbn [negb].
  assert (Hle : (file_size >? max_size) = false)
    by (rewrite Z.gtb_ltb; apply Z.ltb_ge; lia).
  unfold try_except, bind, lift, ret, print, modify, http.
  rewrite measured, Hle.
  cbn [sent add_line].
  fold (session_request rt self file_path mime_type file_size).
  rewrite Hreply. reflexivity.
Qed.

Lemma session_exception_witness :
  fst (upload_file_to_gemini Sample.machine (Sample.scripted [] Sample.refused)
         Sample.chat "clip.mp4" Sample.fresh)
  = Ok (Some (UploadError "Error uploading file: Connection refused")).
Proof.
  assert (Hdisk : video_on_disk Sample.machine Sample.chat "clip.mp4" "video/mp4" 28)
    by (repeat split; reflexivity).
  assert (Hfits : 28 <= max_size) by (unfold max_size; lia).
  rewrite (proj1 (session_exception_becomes_an_error_result
                    Sample.machine (Sample.scripted [] Sample.refused) Sample.chat
                    "clip.mp4" "video/mp4" 28 Sample.fresh 0
                    (RequestException "Connection refused")
                    Hdisk Hfits eq_refl)).
  reflexivity.
Defined.

(** X11.  Once the transfer went through, the outcome of the upload does
    not depend on the status endpoint: whatever the polls answer (ACTIVE,
    FAILED, errors, nothing but PROCESSING), the upload returns the URI,
    after at most 150 status requests; the table then maps the path to
    the new record and every other path to what it had. *)
Theorem upload_outcome_is_independent_of_processing
  rt rm self file_path mime_type file_size s h :
  video_on_disk rt self file_path mime_type file_size ->
  file_size <= max_size ->
  handshake_done rt rm self file_path mime_type file_size s h ->
  exists s' n,
    upload_file_to_gemini rt rm self file_path s
      = (Ok (Some (Uploaded (file_uri h) mime_type)), s') /\
    sent s' = (sent s ++ [session_request rt self file_path mime_type file_size;
                          content_request h file_size]
               ++ repeat (status_request rt self (remote_name h)) n)%list /\
    (n <= 150)%nat /\
    Py.lookup (uploaded_files s') file_path
      = Some (file_record h mime_type file_size) /\
    (forall other, other <> file_path ->
       Py.lookup (uploaded_files s') other = Py.lookup (uploaded_files s) other).
Proof.
  intros Hdisk Hfits Hdone.
  destruct (upload_returns_reference rt rm self file_path mime_type file_size s h
              Hdisk Hfits Hdone)
    as (s' & n & Hrun & _ & Hup & Hsent & Hn).
  exists s', n. split; [exact Hrun|]. split; [exact Hsent|]. split; [exact Hn|].
  rewrite Hup. split.
  - apply lookup_assign.
  - intros other Hne. now apply lookup_assign_other.
Qed.

Lemma upload_outcome_witness :
  exists s',
    upload_file_to_gemini Sample.machine Sample.status_unreachable Sample.chat
      "clip.mp4" Sample.fresh
    = (Ok (Some (Uploaded Sample.remote_uri "video/mp4")), s').
Proof.
  assert (Hdisk : video_on_disk Sample.machine Sample.chat "clip.mp4" "video/mp4" 28)
    by (repeat split; reflexivity).
  assert (Hfits : 28 <= max_size) by (unfold max_size; lia).
  assert (Hdone : handshake_done Sample.machine Sample.status_unreachable
                    Sample.chat "clip.mp4" "video/mp4" 28 Sample.fresh
                    Sample.handshake)
    by (repeat split; reflexivity).
  destruct (upload_outcome_is_independent_of_processing
              Sample.machine Sample.status_unreachable Sample.chat
              "clip.mp4" "video/mp4" 28 Sample.fresh Sample.handshake
              Hdisk Hfits Hdone)
    as (s' & n & Hrun & _).
  exists s'. exact Hrun.
Defined.
(** ** Reading files *)

Lemma read_file_content_some rt rm self file_path s :
  is_file_accessible rt self file_path = true ->
  exists_ rt file_path = Val true ->
  exists part s',
    read_file_content rt rm self file_path s = (Ok (Some part), s') /\
    conversation_history s' = conversation_history s /\
    (in_set (lower rt (suffix rt file_path)) video_extensions = false -> s' = s).
Proof.
  intros Hacc Hex. unfold read_file_content.
  rewrite Hacc, Hex, bind_lift_val. cbn [negb].
  destruct (in_set (lower rt (suffix rt file_path)) video_extensions).
  - unfold try_except, bind.
    destruct (upload_file_to_gemini_quiet rt rm self file_path s)
      as (r & s' & -> & Hh & _).
    do 2 eexists. split; [reflexivity|]. split; [exact Hh | discriminate].
  - run_monad.
    repeat break_match; do 2 eexists; (split; [reflexivity|]);
      split; reflexivity.
Qed.

(** When [Path.exists()] itself raises, the [except] of
    [read_file_content] answers with a part. *)
Lemma read_file_content_unchecked rt rm self file_path s e :
  is_file_accessible rt self file_path = true ->
  exists_ rt file_path = Err e ->
  read_file_content rt rm self file_path s
    = (Ok (Some (text_part ("Error reading file " ++ file_path ++ ": "
                            ++ str_exn rt e))), s).
Proof.
  intros Hacc Hex. unfold read_file_content.
  rewrite Hacc, Hex, bind_lift_err. reflexivity.
Qed.

(** X12.  [read_file_content] never raises.  It returns [None] exactly
    when the path is not accessible or [Path.exists()] returns false for
    it, and then nothing has happened: no request, no output, no change
    of state.  In every other case it returns a part, and the history is
    untouched; when the path is accessible and [Path.exists()] raises,
    the part is the text "Error reading file <path>: <str(e)>", and the
    state is unchanged too. *)
Theorem read_returns_none_only_for_denied_or_missing rt rm self file_path s :
  exists r s',
    read_file_content rt rm self file_path s = (Ok r, s') /\
    conversation_history s' = conversation_history s /\
    (r = None <->
     is_file_accessible rt self file_path = false \/
     exists_ rt file_path = Val false) /\
    (r = None -> s' = s) /\
    (forall e,
       is_file_accessible rt self file_path = true ->
       exists_ rt file_path = Err e ->
       r = Some (VDict [("text",
                         VStr ("Error reading file " ++ file_path ++ ": "
                               ++ str_exn rt e))]) /\
       s' = s).
Proof.
  destruct (is_file_accessible rt self file_path) eqn:Hacc.
  - destruct (exists_ rt file_path) as [[|]|e] eqn:Hex.
    + destruct (read_file_content_some rt rm self file_path s Hacc Hex)
        as (part & s' & Hrun & Hh & _).
      exists (Some part), s'. split; [exact Hrun|]. split; [exact Hh|].
      split; [|split; discriminate].
      split; [discriminate | intros [H|H]; discriminate].
    + exists None, s. unfold read_file_content.
      rewrite Hacc, Hex, bind_lift_val.
      repeat split; auto; discriminate.
    + exists (Some (text_part ("Error reading file " ++ file_path ++ ": "
                               ++ str_exn rt e))), s.
      split; [now apply read_file_content_unchecked|]. split; [reflexivity|].
      split; [|split; [discriminate|]].
      * split; [discriminate | intros [H|H]; discriminate].
      * intros e' _ He'. inversion He'; subst. split; reflexivity.
  - exists None, s. unfold read_file_content. rewrite Hacc.
    repeat split; auto; discriminate.
Qed.

(** X13.  [/read <path>], where the path is the input after the
    command, stripped.  For a path that is not accessible, or for which
    [Path.exists()] returns false, the answer is "❌ Cannot access file:
    <path>"; no request is sent and the state is unchanged: nothing is
    appended to the history.  For an accessible path on which
    [Path.exists()] raises, the router goes on as for a file that was
    read: it appends a user turn that holds the text "Error reading file
    <path>: <str(e)>" and sends the chat request about the file. *)
Theorem read_of_denied_path_makes_no_request rt rm self user_input s :
  let file_path := strip rt (Py.drop 6 user_input) in
  Py.startswith user_input "/read " = true ->
  (is_file_accessible rt self file_path = false \/
   exists_ rt file_path = Val false ->
   process_message rt rm self user_input s
     = (Ok (VStr ("❌ Cannot access file: " ++ file_path)), s)) /\
  (forall e,
     is_file_accessible rt self file_path = true ->
     exists_ rt file_path = Err e ->
     process_message rt rm self user_input s
       = call_gemini rt rm self
           ("I've shared the file " ++ file_path
            ++ " with you. Please analyze it and tell me about its contents.")
           (set_history
              (conversation_history s
               ++ [user_turn [VDict [("text",
                                      VStr ("Error reading file " ++ file_path
                                            ++ ": " ++ str_exn rt e))]]])
              s)).
Proof.
  intros file_path Hroute. split.
  - intros Hdenied. unfold process_message. rewrite Hroute.
    unfold bind at 1. fold file_path.
    assert (Hread : read_file_content rt rm self file_path s = (Ok None, s)).
    { unfold read_file_content.
      destruct (is_file_accessible rt self file_path); [|reflexivity].
      destruct Hdenied as [H|H]; [discriminate|].
      rewrite H, bind_lift_val. reflexivity. }
    rewrite Hread. reflexivity.
  - intros e Hacc Hex. unfold process_message. rewrite Hroute.
    unfold bind at 1. fold file_path.
    rewrite (read_file_content_unchecked rt rm self file_path s e Hacc Hex).
    reflexivity.
Qed.

Lemma read_of_denied_path_witness :
  process_message Sample.machine (Sample.scripted [] Sample.refused) Sample.chat
    "/read /etc/passwd" Sample.busy
  = (Ok (VStr "❌ Cannot access file: /etc/passwd"), Sample.busy).
Proof.
  exact (proj1 (read_of_denied_path_makes_no_request
                  Sample.machine (Sample.scripted [] Sample.refused) Sample.chat
                  "/read /etc/passwd" Sample.busy eq_refl)
           (or_introl eq_refl)).
Defined.

(** X14.  For an accessible, existing file whose suffix is not a video
    suffix, [read_file_content] works from the file system alone: it
    sends no request, prints nothing and leaves the state as it is.  A
    file with a [text/] mime type or a code suffix comes back as
    "File: <path>", an empty line and its content; if reading it raises,
    the part is the text "Error reading file <path>: <str(e)>". *)
Theorem reading_a_text_file_is_local rt rm self file_path s :
  is_file_accessible rt self file_path = true ->
  exists_ rt file_path = Val true ->
  in_set (lower rt (suffix rt file_path)) video_extensions = false ->
  (exists part, read_file_content rt rm self file_path s = (Ok (Some part), s)) /\
  (classify (lower rt (suffix rt file_path)) (guess_type rt file_path) = TextLike ->
   forall content,
     read_text rt file_path = Val content ->
     read_file_content rt rm self file_path s
       = (Ok (Some (VDict [("text",
                            VStr ("File: " ++ file_path ++ nl ++ nl ++ content))])),
          s)) /\
  (classify (lower rt (suffix rt file_path)) (guess_type rt file_path) = TextLike ->
   forall e,
     read_text rt file_path = Err e ->
     read_file_content rt rm self file_path s
       = (Ok (Some (VDict [("text",
                            VStr ("Error reading file " ++ file_path ++ ": "
                                  ++ str_exn rt e))])),
          s)).
Proof.
  intros Hacc Hex Hnot. split.
  { destruct (read_file_content_some rt rm self file_path s Hacc Hex)
      as (part & s' & Hrun & _ & Hsame).
    rewrite (Hsame Hnot) in Hrun. now exists part. }
  split; intros Hcat x Hread;
    rewrite read_file_content_by_category, Hacc, Hex, bind_lift_val; cbn [negb];
    rewrite Hcat; unfold try_except, bind, lift; rewrite Hread; reflexivity.
Qed.

Lemma reading_a_text_file_witness :
  read_file_content Sample.machine (Sample.scripted [] Sample.refused) Sample.chat
    "notes.txt" Sample.fresh
  = (Ok (Some (VDict [("text",
                       VStr ("File: notes.txt" ++ nl ++ nl ++ "remember the milk"))])),
     Sample.fresh).
Proof.
  exact (proj1 (proj2 (reading_a_text_file_is_local
                         Sample.machine (Sample.scripted [] Sample.refused)
                         Sample.chat "notes.txt" Sample.fresh
                         eq_refl eq_refl eq_refl))
           eq_refl "remember the milk" eq_refl).
Defined.

(** ** Chat *)

(** X15.  [call_gemini] never raises.  On every remote it sends exactly
    one request, whose contents are the whole history followed by the
    new user turn, and it leaves the table of uploads alone.  Either the
    history grows by the user turn and a model turn holding the returned
    value, or it grows by the user turn alone and the returned value is a
    text that starts with "❌ ". *)
Theorem call_gemini_answers_or_reports rt rm self message s :
  exists v s',
    call_gemini rt rm self message s = (Ok v, s') /\
    sent s' = (sent s ++ [chat_request self
                            (conversation_history s
                             ++ [user_turn [text_value (VStr message)]])])%list /\
    uploaded_files s' = uploaded_files s /\
    (conversation_history s' =
       (conversation_history s
        ++ [user_turn [text_value (VStr message)]; model_turn [text_value v]])%list
     \/
     (conversation_history s' =
        (conversation_history s ++ [user_turn [text_value (VStr message)]])%list /\
      exists error, v = VStr error /\ Py.startswith error "❌ " = true)).
Proof.
  unfold call_gemini. run_monad.
  cbn [sent conversation_history set_history].
  repeat (break_match; cbn [latency_of] in *; try discriminate);
    repeat match goal with
           | E : (_, _) = (_, _) |- _ => inversion E; subst; clear E
           end;
    do 2 eexists; (split; [reflexivity|]);
    cbn [sent conversation_history uploaded_files set_history advance
         record_request];
    (split; [reflexivity|]); (split; [reflexivity|]);
    first
      [ left; rewrite <- app_assoc; reflexivity
      | right; split; [reflexivity|]; eexists; split; reflexivity ].
Qed.

(** ** The router and the shell *)

(** What one call of the router does to the two stores, on every input,
    runtime and remote. *)
Lemma process_message_effect rt rm self user_input s :
  exists v s',
    process_message rt rm self user_input s = (Ok v, s') /\
    (Py.startswith user_input "/clear" = false ->
     exists added,
       conversation_history s' = (conversation_history s ++ added)%list) /\
    (Py.startswith user_input "/clear" = true -> conversation_history s' = []) /\
    (Py.startswith user_input "/read " = false ->
     Py.startswith user_input "/cleanup" = false ->
     uploaded_files s' = uploaded_files s).
Proof.
  destruct (Py.startswith user_input "/clear") eqn:Hclear.
  { destruct (route_clear _ Hclear) as (R1 & R2 & R3 & R4).
    unfold process_message. rewrite R1, R2, R3, R4, Hclear. cbn [orb].
    do 2 eexists. split; [reflexivity|].
    repeat split; try discriminate; reflexivity. }
  unfold process_message. rewrite Hclear.
  destruct (Py.startswith user_input "/read ").
  { unfold bind at 1.
    destruct (read_file_content_quiet rt rm self
                (strip rt (Py.drop 6 user_input)) s)
      as (r & s1 & -> & Hh & _).
    destruct r as [part|].
    - unfold bind, append_turn, modify.
      match goal with
      | |- context [call_gemini rt rm self ?m ?st] =>
          destruct (call_gemini_shape rt rm self m st)
            as (v & s' & tail & Hrun & Hhist & _ & _)
      end.
      exists v, s'. split; [exact Hrun|].
      repeat split; try discriminate.
      intros _. rewrite Hhist. cbn [conversation_history set_history].
      rewrite Hh, <- app_assoc. eexists. reflexivity.
    - do 2 eexists. split; [reflexivity|].
      repeat split; try discriminate.
      intros _. exists []. now rewrite Hh, app_nil_r. }
  destruct (Py.startswith user_input "/ls" || Py.startswith user_input "/list").
  { do 2 eexists. split; [reflexivity|].
    repeat split; try discriminate. intros _. exists []. now rewrite app_nil_r. }
  destruct (Py.startswith user_input "/help").
  { do 2 eexists. split; [reflexivity|].
    repeat split; try discriminate. intros _. exists []. now rewrite app_nil_r. }
  destruct (Py.startswith user_input "/cleanup").
  { unfold bind at 1. unfold get_state.
    destruct (cleanup_loop_quiet rt rm self (uploaded_files s) 0 s)
      as (n & s' & Hrun & Hh & _).
    unfold bind. rewrite Hrun.
    do 2 eexists. split; [reflexivity|].
    repeat split; try discriminate. intros _. exists []. now rewrite Hh, app_nil_r. }
  destruct (Py.startswith user_input "/uploads").
  { unfold bind, get_state.
    destruct (uploaded_files s) eqn:Hu;
      do 2 eexists; (split; [reflexivity|]);
      (split; [intros _; exists (@nil value); now rewrite app_nil_r|]);
      (split; [discriminate | intros _ _; exact Hu]). }
  destruct (Py.startswith user_input "/dirs").
  { do 2 eexists. split; [reflexivity|].
    repeat split; try discriminate. intros _. exists []. now rewrite app_nil_r. }
  destruct (call_gemini_shape rt rm self user_input s)
    as (v & s' & tail & Hrun & Hhist & Hup & _).
  exists v, s'. split; [exact Hrun|].
  repeat split; try discriminate.
  - intros _. rewrite Hhist. eexists. reflexivity.
  - intros _ _. exact Hup.
Qed.

(** X16.  [process_message] answers every input: it never raises,
    whatever the file system and the remote do.  The history is
    append-only: an input that does not start with [/clear] leaves the
    old history as a prefix of the new one, and an input that starts
    with [/clear] leaves it empty. *)
Theorem router_always_answers_and_history_only_grows rt rm self user_input s :
  exists v s',
    process_message rt rm self user_input s = (Ok v, s') /\
    (Py.startswith user_input "/clear" = false ->
     exists added,
       conversation_history s' = (conversation_history s ++ added)%list) /\
    (Py.startswith user_input "/clear" = true -> conversation_history s' = []).
Proof.
  destruct (process_message_effect rt rm self user_input s)
    as (v & s' & Hrun & Hgrow & Hclear & _).
  exists v, s'. auto.
Qed.

(** X17.  The table of uploads is changed by [/read] and [/cleanup]
    only: every other input, chat messages included, leaves each record
    in place. *)
Theorem only_read_and_cleanup_change_the_uploads rt rm self user_input s :
  Py.startswith user_input "/read " = false ->
  Py.startswith user_input "/cleanup" = false ->
  exists v s',
    process_message rt rm self user_input s = (Ok v, s') /\
    uploaded_files s' = uploaded_files s.
Proof.
  intros Hread Hcleanup.
  destruct (process_message_effect rt rm self user_input s)
    as (v & s' & Hrun & _ & _ & Hup).
  exists v, s'. auto.
Qed.

Lemma only_read_and_cleanup_witness :
  exists v s',
    process_message Sample.machine Sample.says_hi Sample.chat "hello" Sample.busy
      = (Ok v, s') /\
    uploaded_files s' = uploaded_files Sample.busy.
Proof.
  exact (only_read_and_cleanup_change_the_uploads
           Sample.machine Sample.says_hi Sample.chat "hello" Sample.busy
           eq_refl eq_refl).
Defined.

Lemma local_command_not_read user_input :
  Py.startswith user_input "/read " = true -> local_command user_input = false.
Proof. intros H. apply startswith_iff in H. destruct H as [t ->]. reflexivity. Qed.

Lemma local_command_not_clear user_input :
  Py.startswith user_input "/clear" = true -> local_command user_input = false.
Proof. intros H. apply startswith_iff in H. destruct H as [t ->]. reflexivity. Qed.

Lemma local_command_not_cleanup user_input :
  Py.startswith user_input "/cleanup" = true -> local_command user_input = false.
Proof. intros H. apply startswith_iff in H. destruct H as [t ->]. reflexivity. Qed.

(** X18.  The commands [/ls], [/list], [/help], [/uploads] and [/dirs]
    are answered from local state: whatever follows the command word,
    no request is sent, nothing is printed by the router, and the
    history, the table of uploads and the clock are as before. *)
Theorem local_commands_leave_the_state_alone rt rm self user_input s :
  local_command user_input = true ->
  exists v, process_message rt rm self user_input s = (Ok v, s).
Proof.
  intros Hlocal. unfold process_message.
  destruct (Py.startswith user_input "/read ") eqn:E1.
  { rewrite (local_command_not_read _ E1) in Hlocal. discriminate. }
  destruct (Py.startswith user_input "/ls" || Py.startswith user_input "/list")
    eqn:E2; [eexists; reflexivity|].
  destruct (Py.startswith user_input "/help") eqn:E3; [eexists; reflexivity|].
  destruct (Py.startswith user_input "/clear") eqn:E4.
  { rewrite (local_command_not_clear _ E4) in Hlocal. discriminate. }
  destruct (Py.startswith user_input "/cleanup") eqn:E5.
  { rewrite (local_command_not_cleanup _ E5) in Hlocal. discriminate. }
  destruct (Py.startswith user_input "/uploads") eqn:E6.
  { unfold bind, get_state. destruct (uploaded_files s); eexists; reflexivity. }
  destruct (Py.startswith user_input "/dirs") eqn:E7; [eexists; reflexivity|].
  unfold local_command in Hlocal.
  apply orb_false_iff in E2. destruct E2 as [E2 E2'].
  rewrite E2, E2', E3, E6, E7 in Hlocal. discriminate.
Qed.

Lemma local_commands_witness :
  exists v,
    process_message Sample.machine (Sample.scripted [] Sample.refused) Sample.chat
      "/dirs" Sample.busy = (Ok v, Sample.busy).
Proof.
  exact (local_commands_leave_the_state_alone
           Sample.machine (Sample.scripted [] Sample.refused) Sample.chat
           "/dirs" Sample.busy eq_refl).
Defined.

Lemma run_loop_returns rt rm self tty inputs :
  writable tty ->
  Forall readable inputs ->
  forall s,
    exists s',
      run_loop rt rm self tty inputs s = (Ok tt, s') /\
      goodbye (last (console s') "").
Proof.
  intros Htty. induction 1 as [|i inputs Hi Hrest IH]; intros s.
  - eexists. split; [reflexivity|].
    cbn [console add_line]. rewrite last_last. now right.
  - destruct i as [raw| |e]; [| |contradiction].
    + rewrite run_loop_line. cbv zeta.
      destruct (strip rt raw =? "")%string; [apply IH|].
      destruct (in_set (lower rt (strip rt raw)) exit_words).
      { eexists. split; [reflexivity|].
        cbn [console add_line]. rewrite last_last. now left. }
      match goal with
      | |- context [process_message rt rm self ?u ?st] =>
          destruct (process_message_effect rt rm self u st)
            as (v & s1 & -> & _)
      end.
      rewrite Htty. apply IH.
    + rewrite run_loop_interrupt.
      match goal with
      | |- context [teardown rt rm self ?items ?st] =>
          destruct (teardown_quiet rt rm self items st) as (s1 & -> & _)
      end.
      eexists. split; [reflexivity|].
      cbn [console add_line]. rewrite last_last. now left.
Qed.

(** [run] up to its [try]: the banner. *)
Lemma run_banner rt rm self tty inputs s :
  Forall (written tty) (banner self) ->
  run rt rm self tty inputs s =
    try_except
      (run_loop rt rm self tty inputs)
      (fun e => say tty (nl ++ "❌ Unexpected error: " ++ str_exn rt e))
      (fold_left (fun st line => add_line line st) (banner self) s).
Proof.
  intros Hall.
  assert (Hline : forall line, In line (banner self) -> tty line = Val tt)
    by (apply Forall_forall; exact Hall).
  unfold run, say. unfold bind, print, modify, lift.
  rewrite (Hline "🤖 Gemini Terminal Chat with Video Support")
    by (left; reflexivity).
  rewrite (Hline banner_rule) by (right; left; reflexivity).
  rewrite (Hline ("📁 Allowed directories: " ++ Py.join ", " (allowed_dirs self)))
    by (right; right; left; reflexivity).
  rewrite (Hline "🎬 Supports: MP4, AVI, MOV, MKV, WebM, FLV, WMV, M4V")
    by (do 3 right; left; reflexivity).
  rewrite (Hline "Type /help for commands or just start chatting!")
    by (do 4 right; left; reflexivity).
  reflexivity.
Qed.

Lemma writable_banner tty self : writable tty -> Forall (written tty) (banner self).
Proof. intros Htty. apply Forall_forall. intros line _. apply Htty. Qed.

Lemma run_ends rt rm self tty inputs s :
  writable tty ->
  Forall readable inputs ->
  exists s',
    run rt rm self tty inputs s = (Ok tt, s') /\
    goodbye (last (console s') "").
Proof.
  intros Htty Hread. rewrite run_banner by now apply writable_banner.
  unfold try_except.
  match goal with
  | |- context [run_loop rt rm self tty inputs ?st] =>
      destruct (run_loop_returns rt rm self tty inputs Htty Hread st)
        as (s' & Hrun & Hbye)
  end.
  rewrite Hrun. exists s'. split; [reflexivity | exact Hbye].
Qed.

(** A banner line that the terminal refuses ends [run] there. *)
Lemma run_banner_fails rt rm self tty inputs s :
  Exists (fun line => ~ written tty line) (banner self) ->
  exists e s',
    run rt rm self tty inputs s = (Raise e, s') /\
    sent s' = sent s /\ same_store s s'.
Proof.
  unfold banner, written. intros Hsome.
  unfold run, say. unfold bind, print, modify, lift, ret, raise.
  destruct (tty "🤖 Gemini Terminal Chat with Video Support") as [[]|e1] eqn:E1;
    [|do 2 eexists; repeat split; reflexivity].
  destruct (tty banner_rule) as [[]|e2] eqn:E2;
    [|do 2 eexists; repeat split; reflexivity].
  destruct (tty ("📁 Allowed directories: " ++ Py.join ", " (allowed_dirs self)))
    as [[]|e3] eqn:E3; [|do 2 eexists; repeat split; reflexivity].
  destruct (tty "🎬 Supports: MP4, AVI, MOV, MKV, WebM, FLV, WMV, M4V")
    as [[]|e4] eqn:E4; [|do 2 eexists; repeat split; reflexivity].
  destruct (tty "Type /help for commands or just start chatting!")
    as [[]|e5] eqn:E5; [|do 2 eexists; repeat split; reflexivity].
  exfalso.
  repeat match goal with
         | H : Exists _ (_ :: _) |- _ => inversion H; subst; clear H
         | H : Exists _ [] |- _ => inversion H
         end; contradiction.
Qed.

(** X19.  How [run] ends.  On a terminal that takes every text, and
    with inputs that [input()] can read (lines, Ctrl+C, end of input),
    [run] returns normally and the last thing it prints is the goodbye
    line, whatever the runtime and the remote do.  When [input()] raises
    at the first prompt, the handler for unexpected errors runs instead:
    [run] returns, the last line is the report of the error, and there
    is no goodbye.  When the terminal refuses one of the six lines of
    the banner, the exception leaves [run], before any input is read or
    any request sent. *)
Theorem run_ends_with_goodbye_or_reports rt rm self tty inputs s :
  (writable tty ->
   Forall readable inputs ->
   exists s',
     run rt rm self tty inputs s = (Ok tt, s') /\
     goodbye (last (console s') "")) /\
  (forall e rest,
     writable tty ->
     inputs = Unreadable e :: rest ->
     exists s',
       run rt rm self tty inputs s = (Ok tt, s') /\
       last (console s') "" = nl ++ "❌ Unexpected error: " ++ str_exn rt e /\
       ~ goodbye (last (console s') "") /\
       sent s' = sent s) /\
  (Exists (fun line => ~ written tty line) (banner self) ->
   exists e s',
     run rt rm self tty inputs s = (Raise e, s') /\
     sent s' = sent s /\ same_store s s').
Proof.
  split; [|split].
  - apply run_ends.
  - intros e rest Htty ->. rewrite run_banner by now apply writable_banner.
    unfold try_except. cbn [run_loop].
    unfold bind, print, modify, raise, say, lift. rewrite Htty.
    eexists. split; [reflexivity|].
    cbn [console sent add_line]. rewrite last_last.
    split; [reflexivity|]. split; [|reflexivity].
    intros [H|H]; cbn in H; discriminate H.
  - apply run_banner_fails.
Qed.

Lemma run_ends_witness :
  exists s',
    run Sample.machine Sample.says_hi Sample.chat Sample.terminal
      [Line "hello"; Line "quit"; Line "never read"] Sample.fresh = (Ok tt, s') /\
    goodbye (last (console s') "").
Proof.
  apply (proj1 (run_ends_with_goodbye_or_reports
                  Sample.machine Sample.says_hi Sample.chat Sample.terminal
                  [Line "hello"; Line "quit"; Line "never read"] Sample.fresh)).
  - intros text. reflexivity.
  - repeat constructor.
Defined.

(** ** Start-up *)

Lemma init_resolves rt key dirs chat :
  init rt key dirs = Some chat ->
  api_key chat = key /\
  forall d, In d dirs ->
    exists r, resolve rt d = Some r /\ In r (allowed_dirs chat).
Proof.
  unfold init.
  set (resolve_all := fix resolve_all (l : list string) : option (list string) :=
         match l with
         | [] => Some []
         | d :: rest =>
             match resolve rt d, resolve_all rest with
             | Some r, Some rs => Some (r :: rs)
             | _, _ => None
             end
         end).
  assert (Hall : forall l rs, resolve_all l = Some rs ->
                 forall d, In d l -> exists r, resolve rt d = Some r /\ In r rs).
  { induction l as [|x l IH]; intros rs Hrs d Hin; [contradiction|].
    cbn in Hrs.
    destruct (resolve rt x) as [r|] eqn:Hx; [|discriminate].
    destruct (resolve_all l) as [rs'|] eqn:Hl; [|discriminate].
    inversion Hrs; subst. destruct Hin as [->|Hin].
    - exists r. split; [exact Hx | now left].
    - destruct (IH rs' eq_refl d Hin) as (r' & Hr' & Hin').
      exists r'. split; [exact Hr' | now right]. }
  destruct (resolve_all match dirs with [] => ["."] | _ :: _ => dirs end)
    as [rs|] eqn:Hrs; [|discriminate].
  intros Hchat. inversion Hchat; subst. cbn [api_key allowed_dirs].
  split; [reflexivity|].
  intros d Hin. destruct dirs as [|d0 dirs']; [contradiction|].
  exact (Hall _ _ Hrs d Hin).
Qed.

(** X20.  Every directory given to the constructor is itself accessible
    afterwards: [GeminiChat(key, dirs)] resolves each directory, and a
    resolved path starts with itself. *)
Theorem allowed_directories_are_accessible rt key dirs chat d :
  init rt key dirs = Some chat ->
  In d dirs ->
  is_file_accessible rt chat d = true.
Proof.
  intros Hinit Hin.
  destruct (init_resolves rt key dirs chat Hinit) as (_ & Hall).
  destruct (Hall d Hin) as (r & Hr & Hrin).
  apply is_file_accessible_iff. exists r, r, "".
  split; [exact Hr|]. split; [exact Hrin|].
  clear. induction r as [|c r IH]; simpl; [reflexivity | now rewrite <- IH].
Qed.

Lemma allowed_directories_witness :
  is_file_accessible Sample.machine Sample.chat "." = true.
Proof.
  exact (allowed_directories_are_accessible
           Sample.machine "k" ["."] Sample.chat "." eq_refl (or_introl eq_refl)).
Defined.



(** X22.  A non-empty key on the command line wins over the environment
    variable, and an absent or empty one falls back to it.  With a key
    and directories that resolve, [main] builds the chat with that key
    and runs it from an empty history and an empty table of uploads.  It
    ends with status 0 when the terminal takes every text and [input()]
    reads every input, on every remote.  When the terminal refuses a
    line of the banner, the one that holds the directories for instance,
    the exception leaves [run] and [main] with it, before any request:
    there is no status 0. *)
Theorem main_with_key_runs_and_exits_0
  rt rm tty arg_key env_key key dirs chat inputs s :
  (arg_key = Some key \/
   ((arg_key = None \/ arg_key = Some "") /\ env_key = Some key)) ->
  key <> "" ->
  init rt key dirs = Some chat ->
  api_key chat = key /\
  main rt rm tty arg_key env_key dirs inputs s
    = (let (o, s') := run rt rm chat tty inputs (set_uploads [] (set_history [] s)) in
       (match o with Ok _ => Ok (Exited 0) | Raise e => Raise e
                   | OutOfFuel => OutOfFuel end, s')) /\
  (writable tty ->
   Forall readable inputs ->
   exists s', main rt rm tty arg_key env_key dirs inputs s = (Ok (Exited 0), s')) /\
  (Exists (fun line => ~ written tty line) (banner chat) ->
   exists e s',
     main rt rm tty arg_key env_key dirs inputs s = (Raise e, s') /\
     sent s' = sent s).
Proof.
  intros Hkey Hne Hinit.
  split; [exact (proj1 (init_resolves rt key dirs chat Hinit))|].
  assert (Hor : or_key arg_key env_key = Some key).
  { destruct Hkey as [-> | [[-> | ->] ->]]; cbn [or_key]; try reflexivity.
    destruct (key =? "")%string eqn:E; [|reflexivity].
    apply String.eqb_eq in E. contradiction. }
  assert (Hmain :
    main rt rm tty arg_key env_key dirs inputs s
    = (let (o, s') := run rt rm chat tty inputs (set_uploads [] (set_history [] s)) in
       (match o with Ok _ => Ok (Exited 0) | Raise e => Raise e
                   | OutOfFuel => OutOfFuel end, s'))).
  { unfold main. rewrite Hor.
    destruct key as [|c k]; [contradiction|].
    rewrite Hinit. unfold bind, modify, ret.
    destruct (run rt rm chat tty inputs (set_uploads [] (set_history [] s)))
      as [[u| |] s']; reflexivity. }
  split; [exact Hmain|]. split.
  - intros Htty Hread. rewrite Hmain.
    destruct (run_ends rt rm chat tty inputs (set_uploads [] (set_history [] s))
                Htty Hread) as (s' & Hrun & _).
    rewrite Hrun. exists s'. reflexivity.
  - intros Hsome. rewrite Hmain.
    destruct (run_banner_fails rt rm chat tty inputs
                (set_uploads [] (set_history [] s)) Hsome)
      as (e & s' & Hrun & Hsent & _).
    rewrite Hrun. exists e, s'. split; [reflexivity | exact Hsent].
Qed.

Lemma main_with_key_witness :
  exists s',
    main Sample.machine Sample.says_hi Sample.terminal (Some "k") (Some "other")
      ["."] [Line "hello"; Line "quit"] Sample.fresh
    = (Ok (Exited 0), s').
Proof.
  assert (Hne : "k" <> "") by discriminate.
  apply (proj1 (proj2 (proj2 (main_with_key_runs_and_exits_0
                         Sample.machine Sample.says_hi Sample.terminal
                         (Some "k") (Some "other")
                         "k" ["."] Sample.chat [Line "hello"; Line "quit"]
                         Sample.fresh (or_introl eq_refl) Hne eq_refl)))).
  - intros text. reflexivity.
  - repeat constructor.
Defined.
